(** * Folder summary service (lib/model/folder_summary.go)

  A shallow embedding of the folder summary service of the
  synchronisation engine: the on-demand [Summary] computation, the event
  classifier [processUpdate], the dirty-set drain [foldersToHandle], the
  publisher [sendSummary] and one iteration of the scheduler loop
  [calculateSummaries].

  Conventions.
  - Go maps are stdpp finite maps ([gmap string _]); the dirty-set
    [map[string]struct{}] is a [gset string].
  - Fixed-width integers are [Z] with the wrap-around written out
    ([Int.wrap]).
  - [interface{}] values are the tagged union [value].
  - The collaborators the service holds ([Model], [config.Wrapper]) are
    interfaces in the source and type classes here.  A query is a
    read-only observation, so it is a function of its arguments.
  - Clock readings are explicit arguments (nanoseconds). *)

From Stdlib Require Import ZArith Lia.
From stdpp Require Import base option list strings gmap sets.

Local Open Scope Z_scope.

(** ** Machine integers *)

Module Int.

(** Two's-complement reduction of [z] to a signed [w]-bit integer. *)
Definition wrap (w z : Z) : Z := (z + 2 ^ (w - 1)) mod 2 ^ w - 2 ^ (w - 1).

Definition add (w a b : Z) : Z := wrap w (a + b).
Definition sub (w a b : Z) : Z := wrap w (a - b).
Definition mul (w a b : Z) : Z := wrap w (a * b).

Definition min_int (w : Z) : Z := - 2 ^ (w - 1).
Definition max_int (w : Z) : Z := 2 ^ (w - 1) - 1.

Definition in_range (w z : Z) : Prop := min_int w <= z <= max_int w.

End Int.

(** ** package time *)

Module time.

(** A [time.Time] is an instant in nanoseconds; a [time.Duration] is a
    signed 64-bit count of nanoseconds. *)
Definition Time : Type := Z.
Definition Duration : Type := Z.

Definition Second : Duration := 1000000000.
Definition Minute : Duration := 60 * Second.

(** [t.Sub(u)]: the difference, saturated to the range of [Duration]. *)
Definition Sub (t u : Time) : Duration :=
  Z.max (Int.min_int 64) (Z.min (Int.max_int 64) (t - u)).

(** [time.Since(t)] evaluated when the clock reads [now]. *)
Definition Since (now t : Time) : Duration := Sub now t.

(** The zero value of [time.Time], the first instant of year 1, with
    instants counted from the Unix epoch. *)
Definition zeroTime : Time := -62135596800 * Second.

End time.

(** ** package protocol *)

Module protocol.

(** A device identifier is a fixed array of bytes, compared bytewise. *)
Definition DeviceID : Type := list Byte.byte.

#[global] Instance byte_eq_dec : EqDecision Byte.byte := Byte.byte_eq_dec.

(** [a.Equals(b)], which is also [a == b] on the array type. *)
Definition Equals (a b : DeviceID) : bool := bool_decide (a = b).

End protocol.

(** ** package config *)

Module config.

Inductive FolderType :=
| FolderTypeSendReceive
| FolderTypeSendOnly
| FolderTypeReceiveOnly.

#[global] Instance FolderType_eq_dec : EqDecision FolderType.
Proof. solve_decision. Defined.

Record FolderDeviceConfiguration := {
  DeviceID : protocol.DeviceID
}.

(** The fields of a folder configuration that the service reads. *)
Record FolderConfiguration := {
  ID : string;
  Type_ : FolderType;
  Devices : list FolderDeviceConfiguration;
  IgnoreDelete : bool
}.

(** The zero value, which indexing the folder map with an absent key
    yields. *)
Definition zero : FolderConfiguration :=
  {| ID := ""; Type_ := FolderTypeSendReceive; Devices := [];
     IgnoreDelete := false |}.

(** The two queries of [config.Wrapper] that the service uses:
    [Folders()] gives the map from folder identifier to configuration,
    [Folder(id)] gives one configuration and whether it exists. *)
Class Wrapper := {
  Folders : gmap string FolderConfiguration;
  Folder : string → option FolderConfiguration
}.

End config.

(** ** package events *)

Module events.

Inductive EventType :=
| LocalIndexUpdated
| RemoteIndexUpdated
| StateChanged
| RemoteDownloadProgress
| DeviceConnected
| FolderWatchStateChanged
| DownloadProgress
| FolderSummary
| FolderCompletion
| OtherEvent.

#[global] Instance EventType_eq_dec : EqDecision EventType.
Proof. solve_decision. Defined.

End events.

(** ** Dynamically typed values *)

(** What the service stores under [interface{}]: integers (of any Go
  integer type), strings, booleans, instants and nested string-keyed
  maps. *)
#[warnings="-register-all"]
Inductive value :=
| VInt (n : Z)
| VString (s : string)
| VBool (b : bool)
| VTime (t : time.Time)
| VMap (m : gmap string value).

(** ** package db: size counters and snapshots *)

Module db.

(** The file, directory, symlink and deletion counters of a [Counts]
    share one signed integer type of [count_bits] bits; byte totals are
    64-bit. *)
Record Counts := {
  Files : Z;
  Directories : Z;
  Symlinks : Z;
  Deleted : Z;
  Bytes : Z
}.

Definition TotalItems (count_bits : Z) (c : Counts) : Z :=
  Int.add count_bits
    (Int.add count_bits
       (Int.add count_bits (Files c) (Directories c)) (Symlinks c))
    (Deleted c).

Definition withBytes (c : Counts) (b : Z) : Counts :=
  {| Files := Files c; Directories := Directories c;
     Symlinks := Symlinks c; Deleted := Deleted c; Bytes := b |}.

Record Snapshot := {
  GlobalSize : Counts;
  LocalSize : Counts;
  NeedSize : Counts;
  ReceiveOnlyChangedSize : Counts;
  Sequence : protocol.DeviceID → Z
}.

End db.

(** ** package strings *)

Module strings.

(** [strings.HasPrefix(s, prefix)] *)
Definition HasPrefix (s prefix : string) : bool := String.prefix prefix s.

(** [len(s)] *)
Definition len (s : string) : Z := Z.of_nat (String.length s).

End strings.

(** ** package events: events and their payloads *)

(** The payload of an event is dynamically typed.  The service asserts one
    of three map types on it; [P] is the type of the progress records of a
    download-progress payload, of which only the folder keys are read. *)
Inductive Data (P : Type) :=
| DStrings (m : gmap string string)
| DProgress (m : gmap string (gmap string P))
| DMap (m : gmap string value)
| DOther.

Arguments DStrings {P} m.
Arguments DProgress {P} m.
Arguments DMap {P} m.
Arguments DOther {P}.

Record Event (P : Type) := {
  Type_ : events.EventType;
  Data_ : Data P
}.

Arguments Type_ {P} e.
Arguments Data_ {P} e.

(** ** package model: the collaborators *)

Record FileError := {
  Path : string;
  Err : string
}.

(** The queries of the [Model] interface that the service calls, over the
    type of error values.  [DBSnapshot] gives a snapshot or the error.
    [Connection] keeps only the presence flag of its result, and
    [Completion] stands for [Completion(device, folder).Map()]. *)
Class Model (error : Type) := {
  DBSnapshot : string → db.Snapshot + error;
  FolderErrors : string → list FileError * option error;
  FolderProgressBytesCompleted : string → Z;
  State : string → string * time.Time * option error;
  GetIgnores : string → list string * list string * option error;
  WatchError : string → option error;
  Connection : protocol.DeviceID → bool;
  Completion : protocol.DeviceID → string → gmap string value
}.

(** The mutable fields of the service: the folders to recalculate for, and
    the instant of the last event request on the API. *)
Record folderSummaryService := {
  folders : gset string;
  lastEventReq : time.Time
}.

(** ** Sample collaborators

    A small concrete model and configuration, on which the definitions
    below can be evaluated: the folder docs is shared with the devices A,
    C and B and with this device; C is not connected. *)

Module Sample.

Inductive error :=
| Paused
| NotRunning
| Failed (msg : string).

#[global] Instance error_eq_dec : EqDecision error.
Proof. solve_decision. Defined.

Definition Error (e : error) : string :=
  match e with
  | Paused => "folder is paused"
  | NotRunning => "folder is not running"
  | Failed msg => msg
  end.

Definition self : protocol.DeviceID := [Byte.x00].
Definition deviceA : protocol.DeviceID := [Byte.x0a].
Definition deviceB : protocol.DeviceID := [Byte.x0b].
Definition deviceC : protocol.DeviceID := [Byte.x0c].
Definition LocalDeviceID : protocol.DeviceID := [Byte.xff].
Definition GlobalDeviceID : protocol.DeviceID := [Byte.xf8].

Definition DeviceIDString (dev : protocol.DeviceID) : string :=
  if decide (dev = deviceA) then "A"
  else if decide (dev = deviceB) then "B"
  else if decide (dev = deviceC) then "C"
  else "".

Definition DeviceIDFromString (s : string) : protocol.DeviceID :=
  if decide (s = "A") then deviceA
  else if decide (s = "B") then deviceB
  else if decide (s = "C") then deviceC
  else self.

Definition snapshot : db.Snapshot :=
  {| db.GlobalSize :=
       {| db.Files := 10; db.Directories := 2; db.Symlinks := 0;
          db.Deleted := 1; db.Bytes := 1000 |};
     db.LocalSize :=
       {| db.Files := 7; db.Directories := 2; db.Symlinks := 0;
          db.Deleted := 0; db.Bytes := 900 |};
     db.NeedSize :=
       {| db.Files := 3; db.Directories := 0; db.Symlinks := 0;
          db.Deleted := 7; db.Bytes := 100 |};
     db.ReceiveOnlyChangedSize :=
       {| db.Files := 1; db.Directories := 0; db.Symlinks := 0;
          db.Deleted := 0; db.Bytes := 20 |};
     db.Sequence := λ dev, if decide (dev = LocalDeviceID) then 5 else 9 |}.

(** Every folder but [broken] has the snapshot above, with 150 bytes of
    the needed 100 already pulled.  The folder [paused] is paused, the
    error list of [damaged] cannot be read, and the state of [photos]
    cannot be read. *)
Definition model : Model error :=
  {| DBSnapshot folder :=
       if decide (folder = "broken") then inr (Failed "no such folder")
       else inl snapshot;
     FolderErrors folder :=
       if decide (folder = "paused") then ([], Some Paused)
       else if decide (folder = "damaged") then ([], Some (Failed "read error"))
       else ([ {| Path := "a.txt"; Err := "permission denied" |} ], None);
     FolderProgressBytesCompleted _ := 150;
     State folder :=
       if decide (folder = "photos")
       then ("", 0, Some (Failed "state unavailable"))
       else ("idle", 1700000000000000000, None);
     GetIgnores _ := ([ "// backups"; ""; "*.tmp" ], [], None);
     WatchError _ := None;
     Connection dev := bool_decide (dev ≠ deviceC);
     Completion _ _ := {[ "completion" := VInt 100 ]} |}.

Definition docs : config.FolderConfiguration :=
  {| config.ID := "docs";
     config.Type_ := config.FolderTypeReceiveOnly;
     config.Devices :=
       [ {| config.DeviceID := deviceA |}; {| config.DeviceID := self |};
         {| config.DeviceID := deviceC |}; {| config.DeviceID := deviceB |} ];
     config.IgnoreDelete := true |}.

Definition cfg : config.Wrapper :=
  {| config.Folders := {[ "docs" := docs ]};
     config.Folder folder :=
       if decide (folder = "docs") then Some docs else None |}.

(** Events do not carry progress records here. *)
Definition event (type : events.EventType) (data : list (string * string))
    : Event Empty_set :=
  {| Type_ := type; Data_ := DMap (list_to_map (prod_map id VString <$> data)) |}.

Definition docsSynced : Event Empty_set :=
  event events.StateChanged
    [ ("folder", "docs"); ("from", "syncing"); ("to", "idle") ].

Definition docsIndexed : Event Empty_set :=
  event events.LocalIndexUpdated [ ("folder", "docs") ].

Definition docsRemoteIndexed : Event Empty_set :=
  event events.RemoteIndexUpdated [ ("folder", "docs") ].

(** The service with the folder docs marked and the last event request at
    instant 0. *)
Definition service : folderSummaryService :=
  {| folders := {[ "docs" ]}; lastEventReq := 0 |}.

End Sample.

(** ** The service *)

Section Service.

Set Default Proof Using "Type".

(** Go's [error] is an interface: error values are compared by identity
    and rendered by their [Error()] method.  The two sentinel errors of
    the model package are declared outside this file. *)
Context {error : Type} `{!EqDecision error}.
Variable Error : error → string.
Variables ErrFolderPaused errFolderNotRunning : error.

(** Width in bits of the integer type of the item counters of
    [db.Counts], which is declared in package db. *)
Variable count_bits : Z.

(** Declared in package protocol. *)
Variables LocalDeviceID GlobalDeviceID : protocol.DeviceID.
Variable DeviceIDFromString : string → protocol.DeviceID.
Variable DeviceIDString : protocol.DeviceID → string.

(** The payload of a download-progress event maps folders to files to
    progress records; only the folder keys are read here. *)
Context {pullerProgress : Type}.

(** The collaborators [c.model] and [c.cfg]. *)
Context {model : Model error} {cfg : config.Wrapper}.

(** The service's own device identifier ([c.id]). *)
Variable id : protocol.DeviceID.

Definition minSummaryInterval : time.Duration := time.Minute.

(** *** Summary *)

(** The guard on the result of [FolderErrors]:
    [err != nil && err != ErrFolderPaused && err != errFolderNotRunning]. *)
Definition errorsQueryFatal (err : option error) : bool :=
  match err with
  | None => false
  | Some e =>
      bool_decide (e ≠ ErrFolderPaused) && bool_decide (e ≠ errFolderNotRunning)
  end.

(** The loop over the ignore patterns, which stops at the first line
    that is neither empty nor a comment. *)
Fixpoint scanIgnorePatterns (ignorePatterns : list string)
    (res : gmap string value) : gmap string value :=
  match ignorePatterns with
  | [] => res
  | line :: rest =>
      if (0 <? strings.len line) && negb (strings.HasPrefix line "//")
      then <["ignorePatterns" := VBool true]> res
      else scanIgnorePatterns rest res
  end.

(** The statements of [Summary] after its two early returns: they fill
    the record from the snapshot [snap] and the error list [errors], and
    cannot fail. *)
Definition fillSummary (folder : string) (snap : db.Snapshot)
    (errors : list FileError) : gmap string value :=
  let res : gmap string value := ∅ in
  let res := <["errors" := VInt (Z.of_nat (length errors))]> res in
  let res := <["pullErrors" := VInt (Z.of_nat (length errors))]> res in
  let res := <["invalid" := VString ""]> res in

  let global := db.GlobalSize snap in
  let res := <["globalFiles" := VInt (db.Files global)]> res in
  let res := <["globalDirectories" := VInt (db.Directories global)]> res in
  let res := <["globalSymlinks" := VInt (db.Symlinks global)]> res in
  let res := <["globalDeleted" := VInt (db.Deleted global)]> res in
  let res := <["globalBytes" := VInt (db.Bytes global)]> res in
  let res := <["globalTotalItems" := VInt (db.TotalItems count_bits global)]> res in

  let local := db.LocalSize snap in
  let res := <["localFiles" := VInt (db.Files local)]> res in
  let res := <["localDirectories" := VInt (db.Directories local)]> res in
  let res := <["localSymlinks" := VInt (db.Symlinks local)]> res in
  let res := <["localDeleted" := VInt (db.Deleted local)]> res in
  let res := <["localBytes" := VInt (db.Bytes local)]> res in
  let res := <["localTotalItems" := VInt (db.TotalItems count_bits local)]> res in

  let need := db.NeedSize snap in
  let need :=
    db.withBytes need
      (Int.sub 64 (db.Bytes need) (FolderProgressBytesCompleted folder)) in
  let need := if db.Bytes need <? 0 then db.withBytes need 0 else need in
  let res := <["needFiles" := VInt (db.Files need)]> res in
  let res := <["needDirectories" := VInt (db.Directories need)]> res in
  let res := <["needSymlinks" := VInt (db.Symlinks need)]> res in
  let res := <["needDeletes" := VInt (db.Deleted need)]> res in
  let res := <["needBytes" := VInt (db.Bytes need)]> res in
  let res := <["needTotalItems" := VInt (db.TotalItems count_bits need)]> res in

  let fcfg := config.Folder folder in

  let res :=
    match fcfg with
    | Some fcfg =>
        if config.IgnoreDelete fcfg
        then <["needDeletes" := VInt 0]> res else res
    | None => res
    end in

  let res :=
    match fcfg with
    | Some fcfg =>
        if bool_decide (config.Type_ fcfg = config.FolderTypeReceiveOnly)
        then
          let ro := db.ReceiveOnlyChangedSize snap in
          let res := <["receiveOnlyChangedFiles" := VInt (db.Files ro)]> res in
          let res := <["receiveOnlyChangedDirectories" := VInt (db.Directories ro)]> res in
          let res := <["receiveOnlyChangedSymlinks" := VInt (db.Symlinks ro)]> res in
          let res := <["receiveOnlyChangedDeletes" := VInt (db.Deleted ro)]> res in
          let res := <["receiveOnlyChangedBytes" := VInt (db.Bytes ro)]> res in
          <["receiveOnlyTotalItems" := VInt (db.TotalItems count_bits ro)]> res
        else res
    | None => res
    end in

  let res :=
    <["inSyncFiles" := VInt (Int.sub count_bits (db.Files global) (db.Files need))]> res in
  let res :=
    <["inSyncBytes" := VInt (Int.sub 64 (db.Bytes global) (db.Bytes need))]> res in

  let '(state, stateChanged, err) := State folder in
  let res := <["state" := VString state]> res in
  let res := <["stateChanged" := VTime stateChanged]> res in
  let res :=
    match err with
    | Some err => <["error" := VString (Error err)]> res
    | None => res
    end in

  let ourSeq := db.Sequence snap LocalDeviceID in
  let remoteSeq := db.Sequence snap GlobalDeviceID in

  let res := <["version" := VInt (Int.add 64 ourSeq remoteSeq)]> res in
  let res := <["sequence" := VInt (Int.add 64 ourSeq remoteSeq)]> res in

  let '(ignorePatterns, _, _) := GetIgnores folder in
  let res := <["ignorePatterns" := VBool false]> res in
  let res := scanIgnorePatterns ignorePatterns res in

  let res :=
    match WatchError folder with
    | Some err => <["watchError" := VString (Error err)]> res
    | None => res
    end in

  res.

(** [Summary(folder)] returns the pair (record, error) of the source;
    [None] is [nil]. *)
Definition Summary (folder : string)
    : option (gmap string value) * option error :=
  match DBSnapshot folder with
  | inr err => (None, Some err)
  | inl snap =>
      let '(errors, err) := FolderErrors folder in
      if errorsQueryFatal err then (None, err)
      else (Some (fillSummary folder snap errors), None)
  end.

(** *** NewFolderSummaryService *)

(** The mutable fields as [NewFolderSummaryService] leaves them: the map
    of folders is made empty and [lastEventReq] is not set. *)
Definition NewFolderSummaryService : folderSummaryService :=
  {| folders := ∅; lastEventReq := time.zeroTime |}.

(** *** OnEventRequest *)

(** [OnEventRequest()] when the clock reads [now]. *)
Definition OnEventRequest (now : time.Time) (c : folderSummaryService)
    : folderSummaryService :=
  {| folders := folders c; lastEventReq := now |}.

(** *** processUpdate *)

(** [c.folders[folder] = struct{}{}] *)
Definition markFolder (folder : string) (c : folderSummaryService)
    : folderSummaryService :=
  {| folders := {[folder]} ∪ folders c; lastEventReq := lastEventReq c |}.

(** [delete(c.folders, folder)] *)
Definition unmarkFolder (folder : string) (c : folderSummaryService)
    : folderSummaryService :=
  {| folders := folders c ∖ {[folder]}; lastEventReq := lastEventReq c |}.

(** How the [switch] of [processUpdate] ends: the function has returned
    (with the service state and the folder handed over on [c.immediate],
    if any), or control reaches the statements after the switch with
    [folder] set, or a type assertion has failed. *)
Inductive switchOutcome :=
| Returned (c : folderSummaryService) (sent : option string)
| FallsThrough (folder : string)
| Panicked.

(** The inner loops of the device-connected case: does the folder list
    the device? *)
Definition sharedWith (deviceID : protocol.DeviceID)
    (folder : config.FolderConfiguration) : bool :=
  existsb (λ dev, bool_decide (config.DeviceID dev = deviceID))
    (config.Devices folder).

(** [processUpdate(ev)].  [ready] tells whether the send on the unbuffered
    channel [c.immediate] can proceed, that is, whether the scheduler is
    waiting to receive.  The result is [None] when the source panics. *)
Definition processUpdate (ev : Event pullerProgress) (ready : bool)
    (c : folderSummaryService) : option (folderSummaryService * option string) :=
  let outcome :=
    match Type_ ev with
    | events.DeviceConnected =>
        match Data_ ev with
        | DStrings data =>
            let deviceID := DeviceIDFromString (default "" (data !! "id")) in
            Returned
              (map_fold
                 (λ _ folder c,
                    if sharedWith deviceID folder
                    then markFolder (config.ID folder) c else c)
                 c config.Folders)
              None
        | _ => Panicked
        end
    | events.DownloadProgress =>
        match Data_ ev with
        | DProgress data =>
            Returned (map_fold (λ folder _ c, markFolder folder c) c data) None
        | _ => Panicked
        end
    | events.StateChanged =>
        match Data_ ev with
        | DMap data =>
            match data !! "to" with
            | Some (VString to) =>
                if negb (String.eqb to "idle") then Returned c None else
                match data !! "from" with
                | Some (VString from) =>
                    if negb (String.eqb from "syncing")
                       && negb (String.eqb from "sync-preparing")
                    then Returned c None else
                    match data !! "folder" with
                    | Some (VString folder) =>
                        if ready
                        then Returned (unmarkFolder folder c) (Some folder)
                        else FallsThrough folder
                    | _ => Panicked
                    end
                | _ => Panicked
                end
            | _ => Panicked
            end
        | _ => Panicked
        end
    | _ =>
        match Data_ ev with
        | DMap data =>
            match data !! "folder" with
            | Some (VString folder) => FallsThrough folder
            | _ => Panicked
            end
        | _ => Panicked
        end
    end in
  match outcome with
  | Returned c sent => Some (c, sent)
  | FallsThrough folder => Some (markFolder folder c, None)
  | Panicked => None
  end.

(** The loop of [listenForUpdates] over the events received before the
    context is done; each event comes with the readiness of the scheduler
    at that moment.  The result collects the folders handed over. *)
Fixpoint listenForUpdates (evs : list (Event pullerProgress * bool))
    (c : folderSummaryService) : option (folderSummaryService * list string) :=
  match evs with
  | [] => Some (c, [])
  | (ev, ready) :: evs =>
      match processUpdate ev ready c with
      | None => None
      | Some (c, sent) =>
          match listenForUpdates evs c with
          | None => None
          | Some (c, sents) => Some (c, from_option (λ f, [f]) [] sent ++ sents)
          end
      end
  end.

(** *** foldersToHandle *)

(** The loop that moves every key of [c.folders] to the result while
    deleting it, over the keys in the order the iteration yields them. *)
Definition drainLoop (keys : list string) (fs : gset string)
    : list string * gset string :=
  foldl (λ '(res, fs) folder, (res ++ [folder], fs ∖ {[folder]})) ([], fs) keys.

(** [foldersToHandle()] when the clock reads [now].  The iteration order
    of a Go map is unspecified; [elements] fixes one. *)
Definition foldersToHandle (now : time.Time) (c : folderSummaryService)
    : list string * folderSummaryService :=
  let last := lastEventReq c in
  if minSummaryInterval <? time.Since now last then ([], c) else
  let '(res, fs) := drainLoop (elements (folders c)) (folders c) in
  (res, {| folders := fs; lastEventReq := lastEventReq c |}).

(** *** sendSummary *)

Definition summaryEvent (folder : string) (data : gmap string value)
    : Event pullerProgress :=
  {| Type_ := events.FolderSummary;
     Data_ := DMap (<["summary" := VMap data]> (<["folder" := VString folder]> ∅)) |}.

Definition completionEvent (folder : string) (device : protocol.DeviceID)
    : Event pullerProgress :=
  let comp := Completion device folder in
  let comp := <["folder" := VString folder]> comp in
  let comp := <["device" := VString (DeviceIDString device)]> comp in
  {| Type_ := events.FolderCompletion; Data_ := DMap comp |}.

(** The loop over the devices of the folder. *)
Fixpoint sendCompletions (folder : string)
    (devices : list config.FolderDeviceConfiguration)
    : list (Event pullerProgress) :=
  match devices with
  | [] => []
  | devCfg :: devices =>
      if protocol.Equals (config.DeviceID devCfg) id
      then sendCompletions folder devices
      else if negb (Connection (config.DeviceID devCfg))
      then sendCompletions folder devices
      else completionEvent folder (config.DeviceID devCfg)
             :: sendCompletions folder devices
  end.

(** [sendSummary(folder)]: the events logged, in order. *)
Definition sendSummary (folder : string) : list (Event pullerProgress) :=
  match Summary folder with
  | (_, Some _) => []
  | (data, None) =>
      summaryEvent folder (default ∅ data)
        :: sendCompletions folder
             (config.Devices (default config.zero (config.Folders !! folder)))
  end.

(** *** calculateSummaries *)

Definition pumpInterval : time.Duration := 2 * time.Second.

(** Which case of the [select] of the scheduler loop is taken.  For the
    timer case the clock is read three times: [t0] at the start, [now]
    inside [foldersToHandle], and [t1] when the batch is done. *)
Inductive selected :=
| PumpFired (t0 now t1 : time.Time)
| ImmediateReceived (folder : string)
| CtxDone.

(** What one iteration of the loop does: the events logged, the folders
    that [sendSummary] was called for, the service state, the duration the
    timer is reset to (if it is), and whether the loop goes on. *)
Record iteration := {
  logged : list (Event pullerProgress);
  handled : list string;
  service : folderSummaryService;
  reset : option time.Duration;
  continues : bool
}.

Definition calculateSummariesStep (sel : selected) (c : folderSummaryService)
    : iteration :=
  match sel with
  | PumpFired t0 now t1 =>
      let '(batch, c) := foldersToHandle now c in
      let wait := Int.add 64 (Int.mul 64 2 (time.Since t1 t0)) pumpInterval in
      {| logged := flat_map sendSummary batch; handled := batch;
         service := c; reset := Some wait; continues := true |}
  | ImmediateReceived folder =>
      {| logged := sendSummary folder; handled := [folder];
         service := c; reset := None; continues := true |}
  | CtxDone =>
      {| logged := []; handled := []; service := c; reset := None;
         continues := false |}
  end.

(** ** Notions used to state the properties *)

(** The entries that only a receive-only folder gets. *)
Definition receiveOnlyKeys : list string :=
  [ "receiveOnlyChangedFiles"; "receiveOnlyChangedDirectories";
    "receiveOnlyChangedSymlinks"; "receiveOnlyChangedDeletes";
    "receiveOnlyChangedBytes"; "receiveOnlyTotalItems" ].

(** An event of one of the kinds that carry the folder they affect in
    their payload (the default case of the switch). *)
Definition carriesFolder (folder : string) (ev : Event pullerProgress) : Prop :=
  Type_ ev ≠ events.DeviceConnected ∧ Type_ ev ≠ events.DownloadProgress ∧
  Type_ ev ≠ events.StateChanged ∧
  (∃ data, Data_ ev = DMap data ∧ data !! "folder" = Some (VString folder)).

(** Is the logged event the folder summary of [folder]? *)
Definition isSummaryOf (folder : string) (ev : Event pullerProgress) : bool :=
  match Type_ ev, Data_ ev with
  | events.FolderSummary, DMap m =>
      match m !! "folder" with
      | Some (VString g) => String.eqb g folder
      | _ => false
      end
  | _, _ => false
  end.

(** The devices of the folder's configuration, as [sendSummary] finds
    them in the map of folders. *)
Definition folderDevices (folder : string) : list protocol.DeviceID :=
  config.DeviceID <$> config.Devices (default config.zero (config.Folders !! folder)).

(** Those of them that are not the service's own device and are
    connected, in the order of the configuration. *)
Definition completionTargets (folder : string) : list protocol.DeviceID :=
  filter (λ dev, dev ≠ id ∧ Connection dev = true) (folderDevices folder).

(** The folder that a logged event is tagged with. *)
Definition eventFolder (ev : Event pullerProgress) : option value :=
  match Data_ ev with
  | DMap m => m !! "folder"
  | _ => None
  end.

(** A line of the ignore patterns that is neither empty nor a comment. *)
Definition isPattern (line : string) : bool :=
  (0 <? strings.len line) && negb (strings.HasPrefix line "//").

(** ** Properties *)

(** *** Arithmetic of the machine integers *)

Lemma wrap_in_range (w z : Z) :
  Int.in_range w z → Int.wrap w z = z.
Proof.
  unfold Int.in_range, Int.min_int, Int.max_int, Int.wrap. intros Hz.
  destruct (Z_lt_le_dec w 1) as [Hw|Hw].
  - assert (2 ^ (w - 1) = 0) as Hp.
    { destruct (Z.eq_dec w 0) as [->|]; [reflexivity|].
      apply Z.pow_neg_r. lia. }
    rewrite Hp in *. assert (z = 0) as -> by lia.
    rewrite Z.add_0_r, Zmod_0_l. reflexivity.
  - assert (2 ^ w = 2 * 2 ^ (w - 1)) as Hp.
    { replace w with (Z.succ (w - 1)) at 1 by lia.
      rewrite Z.pow_succ_r by lia. reflexivity. }
    assert (0 < 2 ^ (w - 1)) by (apply Z.pow_pos_nonneg; lia).
    rewrite Z.mod_small by lia. lia.
Qed.

Lemma sub_no_overflow (w a b : Z) :
  Int.in_range w (a - b) → Int.sub w a b = a - b.
Proof. apply wrap_in_range. Qed.

(** *** Reading the summary record *)

Lemma scanIgnorePatterns_lookup_ne (lines : list string)
    (res : gmap string value) (k : string) :
  k ≠ "ignorePatterns" → scanIgnorePatterns lines res !! k = res !! k.
Proof.
  intros Hk. induction lines as [|line rest IH]; simpl; [done|].
  case_match; [|done]. by rewrite lookup_insert_ne.
Qed.

Lemma lookup_put_eq (m : gmap string value) (k : string) (v : value) :
  <[k := v]> m !! k = Some v.
Proof. apply lookup_insert_eq. Qed.

Lemma lookup_put_ne (m : gmap string value) (k k' : string) (v : value) :
  k' ≠ k → <[k' := v]> m !! k = m !! k.
Proof. apply lookup_insert_ne. Qed.

Lemma lookup_opt_insert_ne {A : Type} (o : option A) (f : A → value)
    (k k' : string) (m : gmap string value) :
  k ≠ k' →
  match o with Some x => <[k' := f x]> m | None => m end !! k = m !! k.
Proof. intros Hk. destruct o; [by rewrite lookup_insert_ne|done]. Qed.

Lemma lookup_opt_if_insert_ne {A : Type} (o : option A) (g : A → bool)
    (v : value) (k k' : string) (m : gmap string value) :
  k ≠ k' →
  match o with
  | Some x => if g x then <[k' := v]> m else m
  | None => m
  end !! k = m !! k.
Proof.
  intros Hk. destruct o as [x|]; [|done].
  destruct (g x); [by rewrite lookup_insert_ne|done].
Qed.

(** Looks a key up through the inserts of [Summary]. *)
Ltac summary_lookup :=
  cbv zeta;
  repeat first
    [ rewrite lookup_put_eq
    | rewrite lookup_put_ne by discriminate
    | rewrite scanIgnorePatterns_lookup_ne by discriminate
    | rewrite lookup_opt_insert_ne by discriminate
    | rewrite lookup_opt_if_insert_ne by discriminate
    | rewrite lookup_empty
    | progress case_match ].

(** The clamped byte count that [fillSummary] works with. *)
Lemma clamp_max (n : Z) (c : db.Counts) :
  db.Bytes (if db.Bytes (db.withBytes c n) <? 0
            then db.withBytes (db.withBytes c n) 0 else db.withBytes c n)
  = Z.max 0 n.
Proof. simpl. destruct (Z.ltb_spec n 0); simpl; lia. Qed.

Lemma clamp_Files (n : Z) (c : db.Counts) :
  db.Files (if db.Bytes (db.withBytes c n) <? 0
            then db.withBytes (db.withBytes c n) 0 else db.withBytes c n)
  = db.Files c.
Proof. by destruct (_ <? _). Qed.

Lemma clamp_Deleted (n : Z) (c : db.Counts) :
  db.Deleted (if db.Bytes (db.withBytes c n) <? 0
              then db.withBytes (db.withBytes c n) 0 else db.withBytes c n)
  = db.Deleted c.
Proof. by destruct (_ <? _). Qed.

Ltac fill_unfold folder :=
  unfold fillSummary;
  destruct (State folder) as [[?state ?stateChanged] ?serr] eqn:?Hstate;
  destruct (GetIgnores folder) as [[?ignorePatterns ?] ?] eqn:?Hignores;
  cbv zeta.

Lemma fillSummary_needBytes (folder : string) (snap : db.Snapshot)
    (errors : list FileError) :
  fillSummary folder snap errors !! "needBytes"
  = Some (VInt (Z.max 0 (Int.sub 64 (db.Bytes (db.NeedSize snap))
                           (FolderProgressBytesCompleted folder)))).
Proof.
  fill_unfold folder. rewrite <- clamp_max with (c := db.NeedSize snap).
  summary_lookup; reflexivity.
Qed.

Lemma fillSummary_needDeletes (folder : string) (snap : db.Snapshot)
    (errors : list FileError) :
  fillSummary folder snap errors !! "needDeletes"
  = Some (VInt
      match config.Folder folder with
      | Some fcfg =>
          if config.IgnoreDelete fcfg then 0 else db.Deleted (db.NeedSize snap)
      | None => db.Deleted (db.NeedSize snap)
      end).
Proof.
  fill_unfold folder.
  rewrite <- (clamp_Deleted
    (Int.sub 64 (db.Bytes (db.NeedSize snap)) (FolderProgressBytesCompleted folder))).
  summary_lookup; reflexivity.
Qed.

Lemma fillSummary_inSyncFiles (folder : string) (snap : db.Snapshot)
    (errors : list FileError) :
  fillSummary folder snap errors !! "inSyncFiles"
  = Some (VInt (Int.sub count_bits (db.Files (db.GlobalSize snap))
                  (db.Files (db.NeedSize snap)))).
Proof.
  fill_unfold folder.
  rewrite <- (clamp_Files
    (Int.sub 64 (db.Bytes (db.NeedSize snap)) (FolderProgressBytesCompleted folder))
    (db.NeedSize snap)).
  summary_lookup; reflexivity.
Qed.

Lemma fillSummary_inSyncBytes (folder : string) (snap : db.Snapshot)
    (errors : list FileError) :
  fillSummary folder snap errors !! "inSyncBytes"
  = Some (VInt (Int.sub 64 (db.Bytes (db.GlobalSize snap))
                  (Z.max 0 (Int.sub 64 (db.Bytes (db.NeedSize snap))
                              (FolderProgressBytesCompleted folder))))).
Proof.
  fill_unfold folder. rewrite <- clamp_max with (c := db.NeedSize snap).
  summary_lookup; reflexivity.
Qed.

Lemma fillSummary_error (folder : string) (snap : db.Snapshot)
    (errors : list FileError) :
  fillSummary folder snap errors !! "error"
  = (λ e, VString (Error e)) <$> (State folder).2.
Proof.
  fill_unfold folder. summary_lookup; reflexivity.
Qed.

Lemma fillSummary_receiveOnly_absent (folder : string) (snap : db.Snapshot)
    (errors : list FileError) :
  config.Folder folder = None →
  Forall (λ k, fillSummary folder snap errors !! k = None) receiveOnlyKeys.
Proof.
  intros Hcfg. fill_unfold folder. rewrite Hcfg.
  destruct (WatchError folder), serr;
    repeat apply Forall_cons_2; try apply Forall_nil_2;
    rewrite ?lookup_put_ne by discriminate;
    rewrite scanIgnorePatterns_lookup_ne by discriminate;
    vm_compute; reflexivity.
Qed.

(** *** The outcome of Summary *)

Lemma errorsQueryFatal_spec (err : option error) :
  errorsQueryFatal err = true ↔
  ∃ e, err = Some e ∧ e ≠ ErrFolderPaused ∧ e ≠ errFolderNotRunning.
Proof.
  unfold errorsQueryFatal. destruct err as [e|].
  - rewrite andb_true_iff, !bool_decide_eq_true. split.
    + intros [??]. by exists e.
    + intros (? & [= <-] & ? & ?). done.
  - split; [done|]. by intros (? & ? & _).
Qed.

Lemma Summary_ok_inv (folder : string) (res : gmap string value) :
  Summary folder = (Some res, None) →
  ∃ snap errors err,
    DBSnapshot folder = inl snap ∧ FolderErrors folder = (errors, err) ∧
    errorsQueryFatal err = false ∧ res = fillSummary folder snap errors.
Proof.
  unfold Summary. destruct (DBSnapshot folder) as [snap|e]; [|done].
  destruct (FolderErrors folder) as [errors err].
  destruct (errorsQueryFatal err) eqn:Hfatal; [done|].
  intros [= <-]. by exists snap, errors, err.
Qed.

(** C2: Summary returns an error exactly when the snapshot query fails or
    the error-list query fails with an error other than the two sentinels,
    and then it returns no record; otherwise it returns a record, and a
    failure of the state query only puts the error text in that record. *)
Theorem Summary_error_iff (folder : string) :
  ((Summary folder).2 ≠ None ↔
     (∃ e, DBSnapshot folder = inr e) ∨
     (∃ e, (FolderErrors folder).2 = Some e ∧
           e ≠ ErrFolderPaused ∧ e ≠ errFolderNotRunning)) ∧
  ((Summary folder).2 ≠ None → (Summary folder).1 = None) ∧
  ((Summary folder).2 = None →
     ∃ res, (Summary folder).1 = Some res ∧
       res !! "error" = (λ e, VString (Error e)) <$> (State folder).2).
Proof.
  unfold Summary.
  destruct (DBSnapshot folder) as [snap|e] eqn:Hsnap.
  - destruct (FolderErrors folder) as [errors err] eqn:Herrors.
    destruct (errorsQueryFatal err) eqn:Hfatal; simpl.
    + pose proof (proj1 (errorsQueryFatal_spec err) Hfatal) as (e & -> & Hp & Hn).
      split_and!; [|done|done].
      split; [|done]. intros _. right. by exists e.
    + split_and!.
      * split; [done|]. intros [[e [=]]|Hex]. 
        apply errorsQueryFatal_spec in Hex. congruence.
      * done.
      * intros _. eexists. split; [done|]. apply fillSummary_error.
  - simpl. split_and!; [|done|done].
    split; [|done]. intros _. left. by exists e.
Qed.

(** C3: the needBytes entry of the record that Summary produces is the
    needed-byte count of the snapshot minus the bytes completed, clamped
    below at zero, so it is never negative.  The subtraction is the 64-bit
    one, which is the exact difference whenever that fits 64 bits. *)
Theorem Summary_needBytes_clamped (folder : string) (res : gmap string value) :
  Summary folder = (Some res, None) →
  ∃ snap needBytes,
    DBSnapshot folder = inl snap ∧
    res !! "needBytes" = Some (VInt needBytes) ∧
    needBytes =
      Z.max 0 (Int.sub 64 (db.Bytes (db.NeedSize snap))
                 (FolderProgressBytesCompleted folder)) ∧
    0 ≤ needBytes ∧
    (Int.in_range 64
       (db.Bytes (db.NeedSize snap) - FolderProgressBytesCompleted folder) →
     needBytes =
       Z.max 0 (db.Bytes (db.NeedSize snap) - FolderProgressBytesCompleted folder)).
Proof.
  intros (snap & errors & err & Hsnap & _ & _ & ->)%Summary_ok_inv.
  exists snap. eexists. split; [done|].
  split; [apply fillSummary_needBytes|].
  split; [done|]. split; [lia|].
  intros Hfit. by rewrite sub_no_overflow.
Qed.

(** C6: when the folder has a configuration with the ignore-deletes flag
    set, the needDeletes entry of the record that Summary produces is 0,
    whatever the snapshot's count of needed deletions is. *)
Theorem Summary_needDeletes_ignored (folder : string)
    (fcfg : config.FolderConfiguration) (res : gmap string value) :
  Summary folder = (Some res, None) →
  config.Folder folder = Some fcfg →
  config.IgnoreDelete fcfg = true →
  res !! "needDeletes" = Some (VInt 0).
Proof.
  intros (snap & errors & err & _ & _ & _ & ->)%Summary_ok_inv Hcfg Hign.
  by rewrite fillSummary_needDeletes, Hcfg, Hign.
Qed.

(** C9: the record that Summary produces also holds inSyncFiles, the
    global file count minus the needed file count, and inSyncBytes, the
    global byte count minus the clamped needBytes entry.  The subtractions
    are those of the counters' integer types, which are exact whenever the
    difference fits. *)
Theorem Summary_inSync (folder : string) (res : gmap string value) :
  Summary folder = (Some res, None) →
  ∃ snap needBytes inSyncFiles inSyncBytes,
    DBSnapshot folder = inl snap ∧
    res !! "needBytes" = Some (VInt needBytes) ∧
    res !! "inSyncFiles" = Some (VInt inSyncFiles) ∧
    res !! "inSyncBytes" = Some (VInt inSyncBytes) ∧
    inSyncFiles =
      Int.sub count_bits (db.Files (db.GlobalSize snap)) (db.Files (db.NeedSize snap)) ∧
    inSyncBytes = Int.sub 64 (db.Bytes (db.GlobalSize snap)) needBytes ∧
    (Int.in_range count_bits
       (db.Files (db.GlobalSize snap) - db.Files (db.NeedSize snap)) →
     inSyncFiles = db.Files (db.GlobalSize snap) - db.Files (db.NeedSize snap)) ∧
    (Int.in_range 64 (db.Bytes (db.GlobalSize snap) - needBytes) →
     inSyncBytes = db.Bytes (db.GlobalSize snap) - needBytes).
Proof.
  intros (snap & errors & err & Hsnap & _ & _ & ->)%Summary_ok_inv.
  exists snap. do 3 eexists. split; [done|].
  split; [apply fillSummary_needBytes|].
  split; [apply fillSummary_inSyncFiles|].
  split; [apply fillSummary_inSyncBytes|].
  split; [done|]. split; [done|].
  split; intros Hfit; by rewrite sub_no_overflow.
Qed.

(** *** Liveness gating and the drain *)

Lemma stale_iff (now last : time.Time) :
  (minSummaryInterval <? time.Since now last) = true ↔ time.Minute < now - last.
Proof.
  rewrite Z.ltb_lt.
  unfold minSummaryInterval, time.Since, time.Sub, Int.min_int, Int.max_int,
    time.Minute, time.Second.
  change (2 ^ (64 - 1)) with 9223372036854775808. lia.
Qed.

Lemma drainLoop_acc (keys acc : list string) (fs : gset string) :
  foldl (λ '(res, fs) folder, (res ++ [folder], fs ∖ {[folder]})) (acc, fs) keys
  = (acc ++ keys, fs ∖ list_to_set keys).
Proof.
  revert acc fs. induction keys as [|k keys IH]; intros acc fs; simpl.
  - by rewrite app_nil_r, difference_empty_L.
  - by rewrite IH, <- app_assoc, difference_difference_l_L.
Qed.

Lemma drainLoop_elements (fs : gset string) :
  drainLoop (elements fs) fs = (elements fs, ∅).
Proof.
  unfold drainLoop. rewrite drainLoop_acc. simpl. f_equal.
  by rewrite list_to_set_elements_L, difference_diag_L.
Qed.

Lemma foldersToHandle_stale (now : time.Time) (c : folderSummaryService) :
  time.Minute < now - lastEventReq c → foldersToHandle now c = ([], c).
Proof.
  intros Hstale%stale_iff. unfold foldersToHandle. by rewrite Hstale.
Qed.

Lemma foldersToHandle_live (now : time.Time) (c : folderSummaryService) :
  now - lastEventReq c ≤ time.Minute →
  foldersToHandle now c
  = (elements (folders c), {| folders := ∅; lastEventReq := lastEventReq c |}).
Proof.
  intros Hlive. unfold foldersToHandle.
  destruct (minSummaryInterval <? _) eqn:Hstale.
  - apply stale_iff in Hstale. lia.
  - by rewrite drainLoop_elements.
Qed.

(** C1, as the code has it: on a timer tick with the last event request
    more than a minute old, no folder is handed to sendSummary and no
    event is logged, and the dirty-set is left as it was: it is not
    drained. *)
Theorem stale_tick_keeps_dirty_set (t0 now t1 : time.Time)
    (c : folderSummaryService) :
  time.Minute < now - lastEventReq c →
  foldersToHandle now c = ([], c) ∧
  handled (calculateSummariesStep (PumpFired t0 now t1) c) = [] ∧
  logged (calculateSummariesStep (PumpFired t0 now t1) c) = [] ∧
  service (calculateSummariesStep (PumpFired t0 now t1) c) = c.
Proof.
  intros Hstale. unfold calculateSummariesStep.
  by rewrite (foldersToHandle_stale _ _ Hstale).
Qed.

(** C8: a timer tick whose batch takes [d = t1 - t0] resets the timer to
    [2 * d + pumpInterval], with [pumpInterval] two seconds, so the timer
    fires no sooner than [2 * d + pumpInterval] after [t0].  The
    arithmetic is that of 64-bit durations; [d] is taken small enough for
    [2 * d + pumpInterval] to be one. *)
Theorem pump_reset_throttles (t0 now t1 : time.Time) (c : folderSummaryService) :
  0 ≤ t1 - t0 →
  2 * (t1 - t0) + pumpInterval ≤ Int.max_int 64 →
  pumpInterval = 2 * time.Second ∧
  ∃ wait,
    reset (calculateSummariesStep (PumpFired t0 now t1) c) = Some wait ∧
    wait = 2 * (t1 - t0) + pumpInterval ∧
    t0 + (2 * (t1 - t0) + pumpInterval) ≤ t1 + wait.
Proof.
  intros Hd Hfit. split; [done|].
  unfold calculateSummariesStep. destruct (foldersToHandle now c) as [batch c'].
  simpl. eexists. split; [done|].
  assert (pumpInterval = 2000000000) as HT by done.
  assert (Int.max_int 64 = 9223372036854775807) as Hmax by done.
  assert (Int.min_int 64 = -9223372036854775808) as Hmin by done.
  assert (time.Since t1 t0 = t1 - t0) as ->.
  { unfold time.Since, time.Sub. lia. }
  unfold Int.add, Int.mul.
  rewrite (wrap_in_range 64 (2 * (t1 - t0))) by (unfold Int.in_range; lia).
  rewrite wrap_in_range by (unfold Int.in_range; lia).
  lia.
Qed.

(** *** The classifier *)

Lemma unmarkFolder_spec (folder : string) (c : folderSummaryService) :
  folders (unmarkFolder folder c) = (folders c ∖ {[folder]}) ∧
  (folder ∉ folders (unmarkFolder folder c)) ∧
  lastEventReq (unmarkFolder folder c) = lastEventReq c.
Proof.
  simpl. split_and!; [done| |done].
  rewrite elem_of_difference, elem_of_singleton. intros [_ Hne]. by apply Hne.
Qed.

Lemma markFolder_spec (folder : string) (c : folderSummaryService) :
  folders (markFolder folder c) = {[folder]} ∪ folders c ∧
  folder ∈ folders (markFolder folder c) ∧
  lastEventReq (markFolder folder c) = lastEventReq c.
Proof.
  simpl. split_and!; [done| |done].
  apply elem_of_union_l. by apply elem_of_singleton.
Qed.

(** C4: on a state-changed event whose payload carries the strings [to],
    [from] and [folder], processUpdate does nothing unless [to] is idle
    and [from] is syncing or sync-preparing; then, if the send on the
    immediate channel proceeds, the folder is handed over and removed from
    the dirty-set and nothing else happens, and if the send would block,
    the folder is added to the dirty-set. *)
Theorem processUpdate_StateChanged (ev : Event pullerProgress)
    (data : gmap string value) (to from folder : string)
    (c : folderSummaryService) :
  Type_ ev = events.StateChanged →
  Data_ ev = DMap data →
  data !! "to" = Some (VString to) →
  data !! "from" = Some (VString from) →
  data !! "folder" = Some (VString folder) →
  (¬ (to = "idle" ∧ (from = "syncing" ∨ from = "sync-preparing")) →
   ∀ ready, processUpdate ev ready c = Some (c, None)) ∧
  (to = "idle" ∧ (from = "syncing" ∨ from = "sync-preparing") →
   (∃ c', processUpdate ev true c = Some (c', Some folder) ∧
          folders c' = (folders c ∖ {[folder]}) ∧ (folder ∉ folders c') ∧
          lastEventReq c' = lastEventReq c) ∧
   (∃ c', processUpdate ev false c = Some (c', None) ∧
          folders c' = {[folder]} ∪ folders c ∧ folder ∈ folders c' ∧
          lastEventReq c' = lastEventReq c)).
Proof.
  intros HT HD Hto Hfrom Hfolder. unfold processUpdate.
  rewrite HT, HD, Hto.
  destruct (String.eqb_spec to "idle") as [->|Hidle]; simpl.
  - rewrite Hfrom.
    destruct (String.eqb_spec from "syncing") as [->|Hsync]; simpl.
    + rewrite Hfolder. split; [intros []; auto|]. intros _. split.
      * eexists. split; [done|]. apply unmarkFolder_spec.
      * eexists. split; [done|]. apply markFolder_spec.
    + destruct (String.eqb_spec from "sync-preparing") as [->|Hprep]; simpl.
      * rewrite Hfolder. split; [intros []; auto|]. intros _. split.
        -- eexists. split; [done|]. apply unmarkFolder_spec.
        -- eexists. split; [done|]. apply markFolder_spec.
      * split; [done|]. intros [_ [?|?]]; done.
  - split; [done|]. intros [? _]; done.
Qed.

(** *** Marking and draining *)

Lemma processUpdate_carriesFolder (folder : string) (ev : Event pullerProgress)
    (ready : bool) (c : folderSummaryService) :
  carriesFolder folder ev →
  processUpdate ev ready c = Some (markFolder folder c, None).
Proof.
  intros (H1 & H2 & H3 & data & HD & Hf). unfold processUpdate.
  rewrite HD, Hf. by destruct (Type_ ev).
Qed.

Lemma markFolder_idemp (folder : string) (c : folderSummaryService) :
  markFolder folder (markFolder folder c) = markFolder folder c.
Proof.
  unfold markFolder. simpl. f_equal.
  by rewrite (assoc_L (∪)), union_idemp_L.
Qed.

Lemma listenForUpdates_marks (folder : string)
    (evs : list (Event pullerProgress * bool)) (c : folderSummaryService) :
  Forall (λ e, carriesFolder folder e.1) evs →
  listenForUpdates evs (markFolder folder c) = Some (markFolder folder c, []).
Proof.
  induction 1 as [|[ev ready] evs Hev _ IH]; simpl; [done|].
  rewrite (processUpdate_carriesFolder folder) by done.
  by rewrite markFolder_idemp, IH.
Qed.

Lemma isSummaryOf_summaryEvent (folder g : string) (data : gmap string value) :
  isSummaryOf folder (summaryEvent g data) = String.eqb g folder.
Proof.
  unfold isSummaryOf, summaryEvent. simpl.
  rewrite lookup_put_ne by discriminate. by rewrite lookup_put_eq.
Qed.

Lemma isSummaryOf_sendCompletions (folder g : string)
    (devices : list config.FolderDeviceConfiguration) :
  List.filter (isSummaryOf folder) (sendCompletions g devices) = [].
Proof.
  induction devices as [|devCfg devices IH]; simpl; [done|].
  repeat case_match; done.
Qed.

Lemma summaries_of_sendSummary (folder g : string) :
  length (List.filter (isSummaryOf folder) (sendSummary g))
  = match (Summary g).2 with
    | Some _ => 0%nat
    | None => if String.eqb g folder then 1%nat else 0%nat
    end.
Proof.
  unfold sendSummary. destruct (Summary g) as [data [e|]]; simpl; [done|].
  rewrite isSummaryOf_summaryEvent, isSummaryOf_sendCompletions.
  by destruct (String.eqb g folder).
Qed.

Lemma summaries_of_batch (folder : string) (batch : list string) :
  NoDup batch →
  length (List.filter (isSummaryOf folder) (flat_map sendSummary batch))
  = match (Summary folder).2 with
    | Some _ => 0%nat
    | None => if bool_decide (folder ∈ batch) then 1%nat else 0%nat
    end.
Proof.
  induction 1 as [|g batch Hg Hnd IH]; simpl.
  - by destruct (Summary folder).2.
  - rewrite List.filter_app, length_app, IH, summaries_of_sendSummary.
    destruct (String.eqb_spec g folder) as [->|Hne].
    + rewrite bool_decide_eq_false_2 by done.
      rewrite bool_decide_eq_true_2 by (apply elem_of_cons; by left).
      destruct (Summary folder).2; done.
    + rewrite (bool_decide_ext (folder ∈ g :: batch) (folder ∈ batch))
        by (rewrite elem_of_cons; split; [intros [->|?]; done | by right]).
      destruct (Summary g).2, (Summary folder).2; simpl; lia.
Qed.

Lemma count_NoDup (folder : string) (l : list string) :
  NoDup l → folder ∈ l → length (List.filter (String.eqb folder) l) = 1%nat.
Proof.
  induction 1 as [|g l Hg Hnd IH]; intros Hin; [by apply elem_of_nil in Hin|].
  simpl. destruct (String.eqb_spec folder g) as [<-|Hne].
  - simpl. f_equal. clear IH Hin Hnd.
    induction l as [|h l IH]; simpl; [done|].
    apply not_elem_of_cons in Hg as [Hh Hl].
    destruct (String.eqb_spec folder h); [done|]. by apply IH.
  - apply IH. apply elem_of_cons in Hin as [?|?]; done.
Qed.

(** C5: marking a folder dirty several times is the same as marking it
    once.  After any number (more than one) of events that carry the
    folder, the dirty-set is what one such event leaves; and the next
    timer tick that finds a fresh event request hands the folder to
    sendSummary exactly once, empties the dirty-set, and logs exactly one
    folder summary for it (none if Summary fails for the folder). *)
Theorem marking_idempotent (folder : string) (ev : Event pullerProgress)
    (evs : list (Event pullerProgress * bool)) (c : folderSummaryService)
    (t0 now t1 : time.Time) :
  carriesFolder folder ev →
  Forall (λ e, carriesFolder folder e.1) evs →
  (1 < length evs)%nat →
  now - lastEventReq c ≤ time.Minute →
  (∀ ready, processUpdate ev ready c = Some (markFolder folder c, None)) ∧
  listenForUpdates evs c = Some (markFolder folder c, []) ∧
  markFolder folder (markFolder folder c) = markFolder folder c ∧
  let tick := calculateSummariesStep (PumpFired t0 now t1) (markFolder folder c) in
  length (List.filter (String.eqb folder) (handled tick)) = 1%nat ∧
  folders (service tick) = ∅ ∧
  length (List.filter (isSummaryOf folder) (logged tick))
  = match (Summary folder).2 with Some _ => 0%nat | None => 1%nat end.
Proof.
  intros Hev Hevs Hlen Hlive. split_and!.
  - intros ready. by apply processUpdate_carriesFolder.
  - destruct Hevs as [|[ev1 ready1] evs Hev1 Hevs]; [simpl in Hlen; lia|].
    simpl. rewrite (processUpdate_carriesFolder folder) by done.
    by rewrite listenForUpdates_marks.
  - apply markFolder_idemp.
  - unfold calculateSummariesStep.
    rewrite foldersToHandle_live by done. simpl.
    assert (folder ∈ elements ({[folder]} ∪ folders c)) as Hin.
    { apply elem_of_elements, elem_of_union_l. by apply elem_of_singleton. }
    split_and!.
    + apply count_NoDup; [apply NoDup_elements|done].
    + done.
    + rewrite summaries_of_batch by apply NoDup_elements.
      by rewrite bool_decide_eq_true_2.
Qed.

(** *** The publisher *)

Lemma sendCompletions_targets (folder : string)
    (devices : list config.FolderDeviceConfiguration) :
  sendCompletions folder devices
  = completionEvent folder
      <$> filter (λ dev, dev ≠ id ∧ Connection dev = true)
            (config.DeviceID <$> devices).
Proof.
  induction devices as [|devCfg devices IH]; simpl; [done|].
  unfold protocol.Equals.
  destruct (decide (config.DeviceID devCfg = id)) as [Hself|Hother].
  - rewrite bool_decide_eq_true_2 by done.
    rewrite filter_cons_False by (intros [? _]; done). done.
  - rewrite bool_decide_eq_false_2 by done.
    destruct (Connection (config.DeviceID devCfg)) eqn:Hconn; simpl.
    + rewrite filter_cons_True by done. simpl. by rewrite IH.
    + rewrite filter_cons_False by (intros [_ ?]; congruence). done.
Qed.

(** C7: when Summary fails, sendSummary logs nothing; otherwise it logs
    the folder summary first and then one completion event for each
    device of the folder that is not the service's own device and is
    connected, and for no other device. *)
Theorem sendSummary_completions (folder : string) :
  match Summary folder with
  | (_, Some _) => sendSummary folder = []
  | (data, None) =>
      ∃ res, data = Some res ∧
        sendSummary folder
        = summaryEvent folder res
            :: (completionEvent folder <$> completionTargets folder)
  end ∧
  (∀ dev, dev ∈ completionTargets folder ↔
          dev ∈ folderDevices folder ∧ dev ≠ id ∧ Connection dev = true) ∧
  (id ∉ completionTargets folder) ∧
  (∀ res, Type_ (summaryEvent folder res) = events.FolderSummary) ∧
  (∀ ev, ev ∈ completionEvent folder <$> completionTargets folder →
         Type_ ev = events.FolderCompletion).
Proof.
  split_and!.
  - unfold sendSummary. destruct (Summary folder) as [data [e|]] eqn:HS; [done|].
    destruct data as [res|].
    + exists res. split; [done|]. simpl. by rewrite sendCompletions_targets.
    + exfalso. revert HS. unfold Summary.
      destruct (DBSnapshot folder); [|done].
      destruct (FolderErrors folder) as [errors err].
      destruct (errorsQueryFatal err) eqn:Hfatal; [|done].
      intros [= ->]. done.
  - intros dev. unfold completionTargets. rewrite list_elem_of_filter.
    split; [intros [[??]?]; done | intros (?&?&?); done].
  - unfold completionTargets. rewrite list_elem_of_filter.
    intros [[Hne _] _]. by apply Hne.
  - done.
  - intros ev (dev & -> & _)%list_elem_of_fmap. done.
Qed.

(** C10: for a folder that the configuration does not know, a successful
    Summary leaves the needDeletes entry at the snapshot's count and adds
    none of the receive-only entries, and sendSummary logs the folder
    summary and no completion event. *)
Theorem absent_folder_summary (folder : string) (res : gmap string value) :
  config.Folders !! folder = None →
  config.Folder folder = None →
  Summary folder = (Some res, None) →
  sendSummary folder = [summaryEvent folder res] ∧
  completionTargets folder = [] ∧
  ∃ snap,
    DBSnapshot folder = inl snap ∧
    res !! "needDeletes" = Some (VInt (db.Deleted (db.NeedSize snap))) ∧
    Forall (λ k, res !! k = None) receiveOnlyKeys.
Proof.
  intros Hmap Hcfg HS. split_and!.
  - unfold sendSummary. by rewrite HS, Hmap.
  - unfold completionTargets, folderDevices. by rewrite Hmap.
  - apply Summary_ok_inv in HS as (snap & errors & err & Hsnap & _ & _ & ->).
    exists snap. split; [done|]. split.
    + by rewrite fillSummary_needDeletes, Hcfg.
    + by apply fillSummary_receiveOnly_absent.
Qed.

(** ** Further properties of the classifier *)

Lemma sharedWith_spec (deviceID : protocol.DeviceID)
    (folder : config.FolderConfiguration) :
  sharedWith deviceID folder = true ↔
  deviceID ∈ config.DeviceID <$> config.Devices folder.
Proof.
  unfold sharedWith. induction (config.Devices folder) as [|dev devs IH]; simpl.
  - split; [done|]. intros H%elem_of_nil. done.
  - rewrite orb_true_iff, bool_decide_eq_true, IH, elem_of_cons.
    split; (intros [?|?]; [left|right]; done).
Qed.

Lemma connected_fold (deviceID : protocol.DeviceID)
    (m : gmap string config.FolderConfiguration) (c : folderSummaryService) :
  let c' :=
    map_fold
      (λ _ folder c,
         if sharedWith deviceID folder
         then markFolder (config.ID folder) c else c)
      c m in
  lastEventReq c' = lastEventReq c ∧
  ∀ x, x ∈ folders c' ↔
       x ∈ folders c ∨
       ∃ k folder, m !! k = Some folder ∧ config.ID folder = x ∧
                   sharedWith deviceID folder = true.
Proof.
  simpl. apply (map_fold_weak_ind (λ r m,
    lastEventReq r = lastEventReq c ∧
    ∀ x, x ∈ folders r ↔
         x ∈ folders c ∨
         ∃ k folder, m !! k = Some folder ∧ config.ID folder = x ∧
                     sharedWith deviceID folder = true)).
  - split; [done|]. intros x. split; [by left|].
    intros [?|(k & f & Hk & _)]; [done|]. by rewrite lookup_empty in Hk.
  - intros i f m' r Hi [Hlast Hin]. destruct (sharedWith deviceID f) eqn:Hshared.
    + split; [done|]. intros x. simpl.
      rewrite elem_of_union, elem_of_singleton, Hin. split.
      * intros [->|[?|(k & g & Hk & Hid & Hg)]].
        -- right. exists i, f. by rewrite lookup_insert_eq.
        -- by left.
        -- right. exists k, g. rewrite lookup_insert_ne by congruence. done.
      * intros [?|(k & g & Hk & Hid & Hg)]; [right; by left|].
        destruct (decide (i = k)) as [->|Hne].
        -- rewrite lookup_insert_eq in Hk. injection Hk as <-. by left.
        -- rewrite lookup_insert_ne in Hk by done. right. right. by exists k, g.
    + split; [done|]. intros x. rewrite Hin. split.
      * intros [?|(k & g & Hk & Hid & Hg)]; [by left|].
        right. exists k, g. rewrite lookup_insert_ne by congruence. done.
      * intros [?|(k & g & Hk & Hid & Hg)]; [by left|].
        destruct (decide (i = k)) as [->|Hne].
        -- rewrite lookup_insert_eq in Hk. injection Hk as <-. congruence.
        -- rewrite lookup_insert_ne in Hk by done. right. by exists k, g.
Qed.

Lemma progress_fold (data : gmap string (gmap string pullerProgress))
    (c : folderSummaryService) :
  let c' := map_fold (λ folder _ c, markFolder folder c) c data in
  lastEventReq c' = lastEventReq c ∧ folders c' = dom data ∪ folders c.
Proof.
  simpl. apply (map_fold_weak_ind (λ r m,
    lastEventReq r = lastEventReq c ∧ folders r = dom m ∪ folders c)).
  - split; [done|]. by rewrite dom_empty_L, (left_id_L ∅ (∪)).
  - intros i x m r _ [Hlast Hfolders]. split; [done|]. simpl.
    by rewrite Hfolders, dom_insert_L, (assoc_L (∪)).
Qed.

(** X1: a device-connected event marks the folders of the configuration
    that list the device named by the payload, and no other; nothing is
    handed over.  A payload without the key [id] names the device that
    the empty string parses to. *)
Theorem processUpdate_DeviceConnected (ev : Event pullerProgress)
    (data : gmap string string) (ready : bool) (c : folderSummaryService) :
  Type_ ev = events.DeviceConnected →
  Data_ ev = DStrings data →
  ∃ c',
    processUpdate ev ready c = Some (c', None) ∧
    lastEventReq c' = lastEventReq c ∧
    ∀ x, x ∈ folders c' ↔
         x ∈ folders c ∨
         ∃ k folder,
           config.Folders !! k = Some folder ∧ config.ID folder = x ∧
           DeviceIDFromString (default "" (data !! "id"))
             ∈ config.DeviceID <$> config.Devices folder.
Proof.
  intros HT HD. unfold processUpdate. rewrite HT, HD. eexists. split; [done|].
  destruct (connected_fold (DeviceIDFromString (default "" (data !! "id")))
              config.Folders c) as [Hlast Hin].
  split; [exact Hlast|]. intros x. rewrite Hin.
  split; (intros [?|(k & f & Hk & Hid & Hf)]; [by left|]; right; exists k, f;
          split; [done|]; split; [done|]; by apply sharedWith_spec).
Qed.

(** X2: a download-progress event marks every folder that is a key of
    its payload, keeps the folders already marked, and hands nothing
    over. *)
Theorem processUpdate_DownloadProgress (ev : Event pullerProgress)
    (data : gmap string (gmap string pullerProgress)) (ready : bool)
    (c : folderSummaryService) :
  Type_ ev = events.DownloadProgress →
  Data_ ev = DProgress data →
  ∃ c',
    processUpdate ev ready c = Some (c', None) ∧
    lastEventReq c' = lastEventReq c ∧
    folders c' = dom data ∪ folders c.
Proof.
  intros HT HD. unfold processUpdate. rewrite HT, HD. eexists. split; [done|].
  apply progress_fold.
Qed.

Lemma processUpdate_inv (ev : Event pullerProgress) (ready : bool)
    (c c' : folderSummaryService) (sent : option string) :
  processUpdate ev ready c = Some (c', sent) →
  lastEventReq c' = lastEventReq c ∧
  match sent with
  | None => folders c ⊆ folders c'
  | Some folder =>
      Type_ ev = events.StateChanged ∧ ready = true ∧
      folders c' = folders c ∖ {[folder]}
  end.
Proof.
  unfold processUpdate. intros Hstep.
  destruct (Type_ ev) eqn:HT; destruct (Data_ ev) as [data|data|data|] eqn:HD;
    try discriminate; repeat case_match; simplify_eq; simpl;
    try (split; [done|]; try done; apply union_subseteq_r).
  - destruct (connected_fold
      (DeviceIDFromString (default "" (data !! "id"))) config.Folders c)
      as [Hlast Hin].
    split; [exact Hlast|]. intros x Hx. apply Hin. by left.
  - destruct (progress_fold data c) as [Hlast Hfolders].
    split; [exact Hlast|]. rewrite Hfolders. apply union_subseteq_r.
Qed.


(** X4: an event of a kind other than device-connected, download-progress
    and state-changed is processed without a panic exactly when its
    payload is a map that holds a string under the key [folder]. *)
Theorem processUpdate_folder_payload (ev : Event pullerProgress)
    (ready : bool) (c : folderSummaryService) :
  Type_ ev ≠ events.DeviceConnected →
  Type_ ev ≠ events.DownloadProgress →
  Type_ ev ≠ events.StateChanged →
  is_Some (processUpdate ev ready c) ↔
  ∃ data folder,
    Data_ ev = DMap data ∧ data !! "folder" = Some (VString folder).
Proof.
  intros H1 H2 H3. split.
  - unfold processUpdate. intros [r Hr].
    destruct (Type_ ev); try done;
      (destruct (Data_ ev) as [ | |data|]; try discriminate;
       destruct (data !! "folder") as [[]|] eqn:Hf; try discriminate;
       by eexists _, _).
  - intros (data & folder & HD & Hf). eexists.
    apply (processUpdate_carriesFolder folder). unfold carriesFolder.
    split; [done|]. split; [done|]. split; [done|]. by exists data.
Qed.

(** ** Further properties of the scheduler *)

(** X5: after an event request at instant [t], a timer tick that reads
    the clock no more than one minute later (one minute exactly included)
    drains the dirty-set: it returns every marked folder once, in some
    order, and leaves no folder marked. *)
Theorem foldersToHandle_after_request (t now : time.Time)
    (c : folderSummaryService) :
  now - t ≤ time.Minute →
  ∃ batch c',
    foldersToHandle now (OnEventRequest t c) = (batch, c') ∧
    NoDup batch ∧ (∀ folder, folder ∈ batch ↔ folder ∈ folders c) ∧
    folders c' = ∅ ∧ lastEventReq c' = t.
Proof.
  intros Hlive. eexists _, _. split; [by apply foldersToHandle_live|].
  simpl. split; [apply NoDup_elements|]. split; [|done].
  intros folder. apply elem_of_elements.
Qed.

Lemma foldersToHandle_drained (now : time.Time) (c : folderSummaryService) :
  folders c = ∅ → foldersToHandle now c = ([], c).
Proof.
  destruct c as [fs last]. simpl. intros ->. unfold foldersToHandle. simpl.
  destruct (minSummaryInterval <? _); [done|].
  by rewrite drainLoop_elements, elements_empty.
Qed.

(** X6: once a timer tick has drained the dirty-set, a second tick with no
    event in between hands nothing to sendSummary and logs nothing,
    whether or not the event request is still fresh. *)
Theorem second_tick_is_idle (t0 now t1 t0' now' t1' : time.Time)
    (c : folderSummaryService) :
  now - lastEventReq c ≤ time.Minute →
  let c1 := service (calculateSummariesStep (PumpFired t0 now t1) c) in
  folders c1 = ∅ ∧
  handled (calculateSummariesStep (PumpFired t0' now' t1') c1) = [] ∧
  logged (calculateSummariesStep (PumpFired t0' now' t1') c1) = [] ∧
  service (calculateSummariesStep (PumpFired t0' now' t1') c1) = c1.
Proof.
  intros Hlive. unfold calculateSummariesStep.
  rewrite foldersToHandle_live by done. simpl.
  by rewrite foldersToHandle_drained.
Qed.

(** X7: the immediate path.  When a folder goes idle from syncing or
    sync-preparing and the scheduler is ready, the folder is handed over
    and unmarked, and the scheduler then runs sendSummary for it whatever
    the instant of the last event request is: the folder summary is
    logged first whenever Summary succeeds.  The timer is not reset and
    the dirty-set is not drained. *)
Theorem immediate_path (ev : Event pullerProgress) (data : gmap string value)
    (from folder : string) (c : folderSummaryService) :
  Type_ ev = events.StateChanged →
  Data_ ev = DMap data →
  data !! "to" = Some (VString "idle") →
  data !! "from" = Some (VString from) →
  from = "syncing" ∨ from = "sync-preparing" →
  data !! "folder" = Some (VString folder) →
  ∃ c',
    processUpdate ev true c = Some (c', Some folder) ∧
    folders c' = folders c ∖ {[folder]} ∧
    logged (calculateSummariesStep (ImmediateReceived folder) c')
    = sendSummary folder ∧
    handled (calculateSummariesStep (ImmediateReceived folder) c') = [folder] ∧
    service (calculateSummariesStep (ImmediateReceived folder) c') = c' ∧
    reset (calculateSummariesStep (ImmediateReceived folder) c') = None ∧
    (∀ res, Summary folder = (Some res, None) →
       ∃ completions, sendSummary folder = summaryEvent folder res :: completions).
Proof.
  intros HT HD Hto Hfrom Hsync Hfolder. exists (unmarkFolder folder c).
  split.
  - unfold processUpdate. rewrite HT, HD, Hto. simpl. rewrite Hfrom.
    destruct Hsync as [-> | ->]; simpl; by rewrite Hfolder.
  - split; [done|]. split; [done|]. split; [done|]. split; [done|].
    split; [done|]. intros res HS. unfold sendSummary. rewrite HS.
    by eexists.
Qed.

Lemma listenForUpdates_lastEventReq (evs : list (Event pullerProgress * bool))
    (c c' : folderSummaryService) (sents : list string) :
  listenForUpdates evs c = Some (c', sents) → lastEventReq c' = lastEventReq c.
Proof.
  revert c c' sents. induction evs as [|[ev ready] evs IH]; intros c c' sents.
  - by intros [= <- <-].
  - simpl. destruct (processUpdate ev ready c) as [[c1 sent]|] eqn:Hstep; [|done].
    destruct (listenForUpdates evs c1) as [[c2 sents']|] eqn:Hrest; [|done].
    intros [= <- <-]. apply processUpdate_inv in Hstep as [Hlast _].
    apply IH in Hrest. congruence.
Qed.

(** X8: a service on which OnEventRequest was never called publishes
    nothing on timer ticks.  Whatever events the listener has processed
    since the service was made, a tick (with the clock not before the Unix
    epoch) hands no folder to sendSummary, logs nothing and leaves the
    dirty-set as it is. *)
Theorem fresh_service_is_silent (evs : list (Event pullerProgress * bool))
    (c : folderSummaryService) (sents : list string) (t0 now t1 : time.Time) :
  listenForUpdates evs NewFolderSummaryService = Some (c, sents) →
  0 ≤ now →
  handled (calculateSummariesStep (PumpFired t0 now t1) c) = [] ∧
  logged (calculateSummariesStep (PumpFired t0 now t1) c) = [] ∧
  service (calculateSummariesStep (PumpFired t0 now t1) c) = c.
Proof.
  intros Hlast%listenForUpdates_lastEventReq Hnow.
  unfold calculateSummariesStep. rewrite foldersToHandle_stale; [done|].
  rewrite Hlast. simpl.
  unfold time.zeroTime, time.Minute, time.Second. lia.
Qed.

(** X9: end to end.  With no folder marked and a fresh event request, an
    event that carries a folder followed by a timer tick makes the tick
    run sendSummary for that folder and for no other: the events logged
    are those of sendSummary for the folder, and the dirty-set is empty
    again. *)
Theorem event_then_tick (ev : Event pullerProgress) (folder : string)
    (ready : bool) (c : folderSummaryService) (t0 now t1 : time.Time) :
  folders c = ∅ →
  carriesFolder folder ev →
  now - lastEventReq c ≤ time.Minute →
  ∃ c1,
    processUpdate ev ready c = Some (c1, None) ∧
    handled (calculateSummariesStep (PumpFired t0 now t1) c1) = [folder] ∧
    logged (calculateSummariesStep (PumpFired t0 now t1) c1)
    = sendSummary folder ∧
    folders (service (calculateSummariesStep (PumpFired t0 now t1) c1)) = ∅.
Proof.
  intros Hempty Hev Hlive. exists (markFolder folder c).
  split; [by apply processUpdate_carriesFolder|].
  unfold calculateSummariesStep. rewrite foldersToHandle_live by done.
  simpl. rewrite Hempty, (right_id_L ∅ (∪)), elements_singleton. simpl.
  by rewrite app_nil_r.
Qed.

(** X10: a timer tick with a fresh event request logs one folder summary
    for each marked folder for which Summary succeeds, and none for any
    other folder. *)
Theorem tick_summaries (folder : string) (c : folderSummaryService)
    (t0 now t1 : time.Time) :
  now - lastEventReq c ≤ time.Minute →
  length (List.filter (isSummaryOf folder)
            (logged (calculateSummariesStep (PumpFired t0 now t1) c)))
  = match (Summary folder).2 with
    | Some _ => 0%nat
    | None => if bool_decide (folder ∈ folders c) then 1%nat else 0%nat
    end.
Proof.
  intros Hlive. unfold calculateSummariesStep.
  rewrite foldersToHandle_live by done. simpl.
  rewrite summaries_of_batch by apply NoDup_elements.
  destruct (Summary folder).2; [done|].
  by rewrite (bool_decide_ext _ _ (elem_of_elements (folders c) folder)).
Qed.

(** ** Further properties of the publisher *)

Lemma completionEvent_entries (folder : string) (dev : protocol.DeviceID) :
  ∃ m,
    Data_ (completionEvent folder dev) = DMap m ∧
    m !! "folder" = Some (VString folder) ∧
    m !! "device" = Some (VString (DeviceIDString dev)) ∧
    ∀ k, k ≠ "folder" → k ≠ "device" → m !! k = Completion dev folder !! k.
Proof.
  exists (<["device" := VString (DeviceIDString dev)]>
            (<["folder" := VString folder]> (Completion dev folder))).
  split; [reflexivity|]. split; [|split].
  - rewrite lookup_put_ne by discriminate. apply lookup_put_eq.
  - apply lookup_put_eq.
  - intros k Hf Hd. by rewrite !lookup_put_ne by done.
Qed.

Lemma sendSummary_tagged (folder : string) (ev : Event pullerProgress) :
  ev ∈ sendSummary folder →
  eventFolder ev = Some (VString folder) ∧ (Summary folder).2 = None.
Proof.
  unfold sendSummary. destruct (Summary folder) as [data [e|]]; simpl.
  - intros H%elem_of_nil. done.
  - intros Hin. split; [|done]. apply elem_of_cons in Hin as [->|Hin].
    + unfold eventFolder, summaryEvent. cbn [Data_].
      rewrite lookup_put_ne by discriminate. apply lookup_put_eq.
    + rewrite sendCompletions_targets in Hin.
      apply list_elem_of_fmap in Hin as (dev & -> & _).
      destruct (completionEvent_entries folder dev) as (m & HD & Hf & _).
      unfold eventFolder. by rewrite HD.
Qed.

Lemma foldersToHandle_marked (now : time.Time) (c : folderSummaryService)
    (folder : string) :
  folder ∈ (foldersToHandle now c).1 → folder ∈ folders c.
Proof.
  destruct (decide (now - lastEventReq c ≤ time.Minute)) as [Hlive|Hstale].
  - rewrite foldersToHandle_live by done. simpl. apply elem_of_elements.
  - rewrite foldersToHandle_stale by lia. simpl. intros H%elem_of_nil. done.
Qed.

(** X11: every event that a timer tick logs is tagged with a folder that
    was marked when the tick began and for which Summary succeeds: the
    tick publishes nothing about an unmarked folder, and nothing (no
    summary and no completion) about a folder whose Summary fails. *)
Theorem tick_events_origin (ev : Event pullerProgress)
    (c : folderSummaryService) (t0 now t1 : time.Time) :
  ev ∈ logged (calculateSummariesStep (PumpFired t0 now t1) c) →
  ∃ folder,
    eventFolder ev = Some (VString folder) ∧
    folder ∈ folders c ∧ (Summary folder).2 = None.
Proof.
  unfold calculateSummariesStep.
  pose proof (foldersToHandle_marked now c) as Hmarked.
  destruct (foldersToHandle now c) as [batch c']. simpl in *.
  intros Hin%list_elem_of_In%in_flat_map. destruct Hin as (folder & Hf & Hev).
  apply list_elem_of_In in Hf, Hev. exists folder.
  destruct (sendSummary_tagged folder ev Hev) as [Htag Hok].
  split; [done|]. split; [by apply Hmarked|done].
Qed.

(** X12: a completion event logged by sendSummary is that of a device of
    the folder that is connected and is not the service's own.  Its
    payload carries the folder and the string of the device under the
    keys [folder] and [device], whatever the model's completion record
    holds there, and the model's completion record everywhere else. *)
Theorem sendSummary_completion_payload (folder : string)
    (ev : Event pullerProgress) :
  ev ∈ sendSummary folder →
  Type_ ev = events.FolderCompletion →
  ∃ dev m,
    dev ∈ completionTargets folder ∧
    Data_ ev = DMap m ∧
    m !! "folder" = Some (VString folder) ∧
    m !! "device" = Some (VString (DeviceIDString dev)) ∧
    ∀ k, k ≠ "folder" → k ≠ "device" → m !! k = Completion dev folder !! k.
Proof.
  unfold sendSummary. destruct (Summary folder) as [data [e|]]; simpl.
  - intros H%elem_of_nil. done.
  - intros [->|Hin]%elem_of_cons; [done|]. intros _.
    rewrite sendCompletions_targets in Hin.
    apply list_elem_of_fmap in Hin as (dev & -> & Hdev).
    destruct (completionEvent_entries folder dev) as (m & HD & Hrest).
    by exists dev, m.
Qed.

(** ** Further properties of the summary record *)

(** The clamping of the needed bytes leaves the item counters alone. *)
Lemma clamp_Directories (n : Z) (c : db.Counts) :
  db.Directories (if db.Bytes (db.withBytes c n) <? 0
                  then db.withBytes (db.withBytes c n) 0 else db.withBytes c n)
  = db.Directories c.
Proof. by destruct (_ <? _). Qed.

Lemma clamp_Symlinks (n : Z) (c : db.Counts) :
  db.Symlinks (if db.Bytes (db.withBytes c n) <? 0
               then db.withBytes (db.withBytes c n) 0 else db.withBytes c n)
  = db.Symlinks c.
Proof. by destruct (_ <? _). Qed.

Lemma clamp_TotalItems (n : Z) (c : db.Counts) :
  db.TotalItems count_bits
    (if db.Bytes (db.withBytes c n) <? 0
     then db.withBytes (db.withBytes c n) 0 else db.withBytes c n)
  = db.TotalItems count_bits c.
Proof.
  unfold db.TotalItems.
  by rewrite clamp_Files, clamp_Directories, clamp_Symlinks, clamp_Deleted.
Qed.

Lemma scanIgnorePatterns_flag (lines : list string) (res : gmap string value) :
  scanIgnorePatterns lines res !! "ignorePatterns"
  = if existsb isPattern lines then Some (VBool true)
    else res !! "ignorePatterns".
Proof.
  induction lines as [|line rest IH]; simpl; [done|].
  unfold isPattern at 1. destruct (_ && _); simpl; [|done].
  apply lookup_put_eq.
Qed.

(** Unfolds [fillSummary] and names [base] the part of the record that is
    filled before the configuration is looked at. *)
Ltac fill_base folder :=
  unfold fillSummary; cbv zeta;
  match goal with
  | |- context [<["needTotalItems" := ?v]> ?m] =>
      set (base := <["needTotalItems" := v]> m)
  end;
  destruct (State folder) as [[?state ?stateChanged] ?serr] eqn:?Hstate;
  destruct (GetIgnores folder) as [[?ignorePatterns ?] ?] eqn:?Hignores.

Lemma lookup_if_insert_ne (b : bool) (v : value) (k k' : string)
    (m : gmap string value) :
  k ≠ k' → (if b then <[k' := v]> m else m) !! k = m !! k.
Proof. intros Hk. destruct b; [by rewrite lookup_insert_ne|done]. Qed.

(** Looks a key up through the entries added after [base]. *)
Ltac upper_lookup folder :=
  repeat first
    [ rewrite lookup_put_eq
    | rewrite lookup_put_ne by discriminate
    | rewrite scanIgnorePatterns_lookup_ne by discriminate
    | rewrite lookup_opt_insert_ne by discriminate
    | rewrite lookup_opt_if_insert_ne by discriminate
    | rewrite lookup_if_insert_ne by discriminate
    | match goal with
      | |- context [match config.Folder folder with _ => _ end] =>
          destruct (config.Folder folder) as [?fcfg|]
      | |- context [if bool_decide ?P then _ else _] =>
          destruct (bool_decide P)
      end ].

(** Looks a key up through the entries added after [base], then through
    [base] itself. *)
Ltac record_key folder :=
  upper_lookup folder;
  lazymatch goal with
  | |- ?b !! _ = _ =>
      is_var b; subst b;
      repeat first
        [ rewrite lookup_put_eq
        | rewrite lookup_put_ne by discriminate
        | rewrite lookup_empty ];
      rewrite ?clamp_Files, ?clamp_Directories, ?clamp_Symlinks,
        ?clamp_TotalItems;
      reflexivity
  | |- _ => reflexivity
  end.

Lemma fillSummary_errors (folder : string) (snap : db.Snapshot)
    (errors : list FileError) :
  fillSummary folder snap errors !! "errors"
  = Some (VInt (Z.of_nat (length errors))) ∧
  fillSummary folder snap errors !! "pullErrors"
  = Some (VInt (Z.of_nat (length errors))) ∧
  fillSummary folder snap errors !! "invalid" = Some (VString "").
Proof. fill_base folder. split_and!; record_key folder. Qed.

Lemma fillSummary_sizes (folder : string) (snap : db.Snapshot)
    (errors : list FileError) :
  let res := fillSummary folder snap errors in
  let global := db.GlobalSize snap in
  let local := db.LocalSize snap in
  Forall (λ kv, res !! kv.1 = Some (VInt kv.2))
    [ ("globalFiles", db.Files global);
      ("globalDirectories", db.Directories global);
      ("globalSymlinks", db.Symlinks global);
      ("globalDeleted", db.Deleted global);
      ("globalBytes", db.Bytes global);
      ("globalTotalItems", db.TotalItems count_bits global);
      ("localFiles", db.Files local);
      ("localDirectories", db.Directories local);
      ("localSymlinks", db.Symlinks local);
      ("localDeleted", db.Deleted local);
      ("localBytes", db.Bytes local);
      ("localTotalItems", db.TotalItems count_bits local) ].
Proof.
  fill_base folder.
  repeat (apply Forall_cons_2; [cbn [fst snd]; record_key folder|]).
  apply Forall_nil_2.
Qed.

Lemma fillSummary_need (folder : string) (snap : db.Snapshot)
    (errors : list FileError) :
  let res := fillSummary folder snap errors in
  let need := db.NeedSize snap in
  Forall (λ kv, res !! kv.1 = Some (VInt kv.2))
    [ ("needFiles", db.Files need);
      ("needDirectories", db.Directories need);
      ("needSymlinks", db.Symlinks need);
      ("needTotalItems", db.TotalItems count_bits need) ].
Proof.
  fill_base folder.
  repeat (apply Forall_cons_2; [cbn [fst snd]; record_key folder|]).
  apply Forall_nil_2.
Qed.

Lemma fillSummary_state (folder : string) (snap : db.Snapshot)
    (errors : list FileError) :
  fillSummary folder snap errors !! "state"
  = Some (VString (State folder).1.1) ∧
  fillSummary folder snap errors !! "stateChanged"
  = Some (VTime (State folder).1.2).
Proof. fill_base folder. split_and!; record_key folder. Qed.

Lemma fillSummary_sequence (folder : string) (snap : db.Snapshot)
    (errors : list FileError) :
  let sequence :=
    Int.add 64 (db.Sequence snap LocalDeviceID) (db.Sequence snap GlobalDeviceID) in
  fillSummary folder snap errors !! "version" = Some (VInt sequence) ∧
  fillSummary folder snap errors !! "sequence" = Some (VInt sequence).
Proof. fill_base folder. split_and!; record_key folder. Qed.

Lemma fillSummary_ignorePatterns (folder : string) (snap : db.Snapshot)
    (errors : list FileError) :
  fillSummary folder snap errors !! "ignorePatterns"
  = Some (VBool (existsb isPattern (GetIgnores folder).1.1)).
Proof.
  fill_base folder. cbn [fst snd].
  rewrite lookup_opt_insert_ne by discriminate.
  rewrite scanIgnorePatterns_flag, lookup_put_eq.
  by destruct (existsb isPattern _).
Qed.

Lemma fillSummary_watchError (folder : string) (snap : db.Snapshot)
    (errors : list FileError) :
  fillSummary folder snap errors !! "watchError"
  = (λ e, VString (Error e)) <$> WatchError folder.
Proof.
  fill_base folder. destruct (WatchError folder) as [e|]; cbn [fmap option_fmap option_map].
  - apply lookup_put_eq.
  - record_key folder.
Qed.

Lemma fillSummary_receiveOnly (folder : string) (snap : db.Snapshot)
    (errors : list FileError) :
  let res := fillSummary folder snap errors in
  let ro := db.ReceiveOnlyChangedSize snap in
  match config.Folder folder with
  | Some fcfg =>
      if bool_decide (config.Type_ fcfg = config.FolderTypeReceiveOnly)
      then
        Forall (λ kv, res !! kv.1 = Some (VInt kv.2))
          [ ("receiveOnlyChangedFiles", db.Files ro);
            ("receiveOnlyChangedDirectories", db.Directories ro);
            ("receiveOnlyChangedSymlinks", db.Symlinks ro);
            ("receiveOnlyChangedDeletes", db.Deleted ro);
            ("receiveOnlyChangedBytes", db.Bytes ro);
            ("receiveOnlyTotalItems", db.TotalItems count_bits ro) ]
      else Forall (λ k, res !! k = None) receiveOnlyKeys
  | None => Forall (λ k, res !! k = None) receiveOnlyKeys
  end.
Proof.
  fill_base folder.
  destruct (config.Folder folder) as [fcfg|];
    [destruct (bool_decide (config.Type_ fcfg = config.FolderTypeReceiveOnly))|].
  - repeat (apply Forall_cons_2; [cbn [fst snd]; record_key folder|]).
    apply Forall_nil_2.
  - repeat (apply Forall_cons_2; [record_key folder|]). apply Forall_nil_2.
  - repeat (apply Forall_cons_2; [record_key folder|]). apply Forall_nil_2.
Qed.

Lemma isPattern_spec (line : string) :
  isPattern line = true ↔ line ≠ "" ∧ strings.HasPrefix line "//" = false.
Proof.
  unfold isPattern, strings.len.
  rewrite andb_true_iff, negb_true_iff, Z.ltb_lt.
  destruct line; simpl; split; intros [? ?]; split; try done; lia.
Qed.

(** X13: the entries errors and pullErrors of the record that Summary
    produces both hold the number of errors that the model lists for the
    folder (also when the list comes with one of the two tolerated
    errors), and the entry invalid is the empty string. *)
Theorem Summary_error_count (folder : string) (res : gmap string value) :
  Summary folder = (Some res, None) →
  res !! "errors" = Some (VInt (Z.of_nat (length (FolderErrors folder).1))) ∧
  res !! "pullErrors" = Some (VInt (Z.of_nat (length (FolderErrors folder).1))) ∧
  res !! "invalid" = Some (VString "").
Proof.
  intros (snap & errors & err & _ & -> & _ & ->)%Summary_ok_inv.
  apply fillSummary_errors.
Qed.

(** X14: the entries version and sequence hold the same number, the
    64-bit sum of the snapshot's sequence numbers of the local and of the
    global device. *)
Theorem Summary_sequence (folder : string) (res : gmap string value) :
  Summary folder = (Some res, None) →
  ∃ snap,
    DBSnapshot folder = inl snap ∧
    res !! "version"
    = Some (VInt (Int.add 64 (db.Sequence snap LocalDeviceID)
                    (db.Sequence snap GlobalDeviceID))) ∧
    res !! "sequence" = res !! "version".
Proof.
  intros (snap & errors & err & Hsnap & _ & _ & ->)%Summary_ok_inv.
  exists snap. split; [done|].
  destruct (fillSummary_sequence folder snap errors) as [Hv Hs].
  split; [exact Hv|]. by rewrite Hv, Hs.
Qed.

(** X15: the entry ignorePatterns is a boolean that is true exactly when
    one of the folder's ignore lines is neither empty nor starts with two
    slashes; the error that the ignore query may return plays no part. *)
Theorem Summary_ignorePatterns_flag (folder : string)
    (res : gmap string value) :
  Summary folder = (Some res, None) →
  ∃ flag,
    res !! "ignorePatterns" = Some (VBool flag) ∧
    (flag = true ↔
     ∃ line, line ∈ (GetIgnores folder).1.1 ∧ line ≠ "" ∧
             strings.HasPrefix line "//" = false).
Proof.
  intros (snap & errors & err & _ & _ & _ & ->)%Summary_ok_inv.
  eexists. split; [apply fillSummary_ignorePatterns|].
  rewrite existsb_exists. split.
  - intros (line & Hin & Hline). exists line.
    split; [by apply list_elem_of_In|]. by apply isPattern_spec.
  - intros (line & Hin & Hline). exists line.
    split; [by apply list_elem_of_In|]. by apply isPattern_spec.
Qed.

(** X16: the record has an entry watchError exactly when the model
    reports a watch error for the folder, and the entry is the text of
    that error. *)
Theorem Summary_watchError (folder : string) (res : gmap string value) :
  Summary folder = (Some res, None) →
  res !! "watchError" = (λ e, VString (Error e)) <$> WatchError folder.
Proof.
  intros (snap & errors & err & _ & _ & _ & ->)%Summary_ok_inv.
  apply fillSummary_watchError.
Qed.

(** X17: the six receive-only entries hold the counters of the locally
    changed items when the folder has a configuration of receive-only
    type; otherwise (another type, or no configuration) the record has
    none of them. *)
Theorem Summary_receiveOnly (folder : string) (res : gmap string value) :
  Summary folder = (Some res, None) →
  ∃ snap,
    DBSnapshot folder = inl snap ∧
    match config.Folder folder with
    | Some fcfg =>
        if bool_decide (config.Type_ fcfg = config.FolderTypeReceiveOnly)
        then
          Forall (λ kv, res !! kv.1 = Some (VInt kv.2))
            [ ("receiveOnlyChangedFiles",
               db.Files (db.ReceiveOnlyChangedSize snap));
              ("receiveOnlyChangedDirectories",
               db.Directories (db.ReceiveOnlyChangedSize snap));
              ("receiveOnlyChangedSymlinks",
               db.Symlinks (db.ReceiveOnlyChangedSize snap));
              ("receiveOnlyChangedDeletes",
               db.Deleted (db.ReceiveOnlyChangedSize snap));
              ("receiveOnlyChangedBytes",
               db.Bytes (db.ReceiveOnlyChangedSize snap));
              ("receiveOnlyTotalItems",
               db.TotalItems count_bits (db.ReceiveOnlyChangedSize snap)) ]
        else Forall (λ k, res !! k = None) receiveOnlyKeys
    | None => Forall (λ k, res !! k = None) receiveOnlyKeys
    end.
Proof.
  intros (snap & errors & err & Hsnap & _ & _ & ->)%Summary_ok_inv.
  exists snap. split; [done|]. apply fillSummary_receiveOnly.
Qed.

(** X18: the entries needFiles, needDirectories and needSymlinks are the
    snapshot's needed counts, and needTotalItems is their total with the
    needed deletions, in the counters' integer type.  Neither the
    clamping of the needed bytes nor the ignore-deletes flag changes
    them: needTotalItems still counts the deletions that needDeletes
    hides. *)
Theorem Summary_need_items (folder : string) (res : gmap string value) :
  Summary folder = (Some res, None) →
  ∃ snap,
    DBSnapshot folder = inl snap ∧
    Forall (λ kv, res !! kv.1 = Some (VInt kv.2))
      [ ("needFiles", db.Files (db.NeedSize snap));
        ("needDirectories", db.Directories (db.NeedSize snap));
        ("needSymlinks", db.Symlinks (db.NeedSize snap));
        ("needTotalItems",
         Int.add count_bits
           (Int.add count_bits
              (Int.add count_bits (db.Files (db.NeedSize snap))
                 (db.Directories (db.NeedSize snap)))
              (db.Symlinks (db.NeedSize snap)))
           (db.Deleted (db.NeedSize snap))) ].
Proof.
  intros (snap & errors & err & Hsnap & _ & _ & ->)%Summary_ok_inv.
  exists snap. split; [done|]. apply fillSummary_need.
Qed.

(** X19: unless the folder has a configuration with the ignore-deletes
    flag set, the entry needDeletes is the snapshot's count of needed
    deletions. *)
Theorem Summary_needDeletes_kept (folder : string) (res : gmap string value) :
  Summary folder = (Some res, None) →
  (∀ fcfg, config.Folder folder = Some fcfg → config.IgnoreDelete fcfg = false) →
  ∃ snap,
    DBSnapshot folder = inl snap ∧
    res !! "needDeletes" = Some (VInt (db.Deleted (db.NeedSize snap))).
Proof.
  intros (snap & errors & err & Hsnap & _ & _ & ->)%Summary_ok_inv Hkeep.
  exists snap. split; [done|]. rewrite fillSummary_needDeletes.
  destruct (config.Folder folder) as [fcfg|]; [|done].
  by rewrite (Hkeep fcfg).
Qed.

(** X20: the global and local entries of the record are the counters of
    the snapshot's global and local sizes, each total being the sum of
    the four item counters in their integer type. *)
Theorem Summary_sizes (folder : string) (res : gmap string value) :
  Summary folder = (Some res, None) →
  ∃ snap,
    DBSnapshot folder = inl snap ∧
    Forall (λ kv, res !! kv.1 = Some (VInt kv.2))
      [ ("globalFiles", db.Files (db.GlobalSize snap));
        ("globalDirectories", db.Directories (db.GlobalSize snap));
        ("globalSymlinks", db.Symlinks (db.GlobalSize snap));
        ("globalDeleted", db.Deleted (db.GlobalSize snap));
        ("globalBytes", db.Bytes (db.GlobalSize snap));
        ("globalTotalItems", db.TotalItems count_bits (db.GlobalSize snap));
        ("localFiles", db.Files (db.LocalSize snap));
        ("localDirectories", db.Directories (db.LocalSize snap));
        ("localSymlinks", db.Symlinks (db.LocalSize snap));
        ("localDeleted", db.Deleted (db.LocalSize snap));
        ("localBytes", db.Bytes (db.LocalSize snap));
        ("localTotalItems", db.TotalItems count_bits (db.LocalSize snap)) ].
Proof.
  intros (snap & errors & err & Hsnap & _ & _ & ->)%Summary_ok_inv.
  exists snap. split; [done|]. apply fillSummary_sizes.
Qed.

(** X21: the entries state and stateChanged hold what the state query
    returns, also when that query returns an error. *)
Theorem Summary_state (folder : string) (res : gmap string value) :
  Summary folder = (Some res, None) →
  res !! "state" = Some (VString (State folder).1.1) ∧
  res !! "stateChanged" = Some (VTime (State folder).1.2).
Proof.
  intros (snap & errors & err & _ & _ & _ & ->)%Summary_ok_inv.
  apply fillSummary_state.
Qed.

End Service.

(** ** The properties on the sample service *)

Abbreviation sampleSummary :=
  (Summary Sample.Error Sample.Paused Sample.NotRunning 32
     Sample.LocalDeviceID Sample.GlobalDeviceID
     (model := Sample.model) (cfg := Sample.cfg)).

Abbreviation sampleSendSummary :=
  (sendSummary Sample.Error Sample.Paused Sample.NotRunning 32
     Sample.LocalDeviceID Sample.GlobalDeviceID Sample.DeviceIDString
     (pullerProgress := Empty_set) (model := Sample.model) (cfg := Sample.cfg)
     Sample.self).

Abbreviation sampleStep :=
  (calculateSummariesStep Sample.Error Sample.Paused Sample.NotRunning 32
     Sample.LocalDeviceID Sample.GlobalDeviceID Sample.DeviceIDString
     (pullerProgress := Empty_set) (model := Sample.model) (cfg := Sample.cfg)
     Sample.self).

Abbreviation sampleProcessUpdate :=
  (processUpdate Sample.DeviceIDFromString (cfg := Sample.cfg)).

(** The claim that a stale tick empties the dirty-set fails: with the last
    event request at instant 0 and the clock at 61 seconds, the tick
    leaves the folder docs in the dirty-set. *)
Lemma stale_tick_does_not_drain :
  let tick :=
    sampleStep (PumpFired (61 * time.Second) (61 * time.Second) (62 * time.Second))
      Sample.service in
  time.Minute < 61 * time.Second - lastEventReq Sample.service ∧
  "docs" ∈ folders (service tick) ∧
  folders (service tick) ≠ ∅.
Proof.
  split; [reflexivity|]. split.
  - vm_compute. reflexivity.
  - vm_compute. discriminate.
Defined.

(** The same tick, read by the theorem on stale ticks. *)
Lemma stale_tick_keeps_dirty_set_witness :
  let tick :=
    sampleStep (PumpFired (61 * time.Second) (61 * time.Second) (62 * time.Second))
      Sample.service in
  time.Minute < 61 * time.Second - lastEventReq Sample.service ∧
  handled tick = [] ∧ logged tick = [] ∧ service tick = Sample.service.
Proof.
  assert (time.Minute < 61 * time.Second - lastEventReq Sample.service)
    as Hstale by reflexivity.
  split; [exact Hstale|].
  exact (proj2 (stale_tick_keeps_dirty_set Sample.Error Sample.Paused
    Sample.NotRunning 32 Sample.LocalDeviceID Sample.GlobalDeviceID
    Sample.DeviceIDString Sample.self _ _ _ Sample.service Hstale)).
Defined.

(** 100 bytes needed and 150 completed give a needBytes of 0. *)
Lemma Summary_needBytes_clamped_witness :
  ∃ res,
    sampleSummary "docs" = (Some res, None) ∧
    db.Bytes (db.NeedSize Sample.snapshot) = 100 ∧
    FolderProgressBytesCompleted (Model := Sample.model) "docs" = 150 ∧
    res !! "needBytes" = Some (VInt 0).
Proof.
  eexists. split; [reflexivity|]. split; [reflexivity|]. split; [reflexivity|].
  destruct (Summary_needBytes_clamped Sample.Error Sample.Paused
    Sample.NotRunning 32 Sample.LocalDeviceID Sample.GlobalDeviceID
    (model := Sample.model) (cfg := Sample.cfg) "docs" _ eq_refl)
    as (snap & needBytes & Hsnap & Hres & Hneed & _).
  injection Hsnap as <-. rewrite Hres, Hneed. reflexivity.
Defined.

(** 7 needed deletions, ignored by the configuration of docs, give a
    needDeletes of 0. *)
Lemma Summary_needDeletes_ignored_witness :
  ∃ res,
    sampleSummary "docs" = (Some res, None) ∧
    db.Deleted (db.NeedSize Sample.snapshot) = 7 ∧
    config.IgnoreDelete Sample.docs = true ∧
    res !! "needDeletes" = Some (VInt 0).
Proof.
  eexists. split; [reflexivity|]. split; [reflexivity|]. split; [reflexivity|].
  exact (Summary_needDeletes_ignored Sample.Error Sample.Paused
    Sample.NotRunning 32 Sample.LocalDeviceID Sample.GlobalDeviceID
    (model := Sample.model) (cfg := Sample.cfg) "docs" Sample.docs _
    eq_refl eq_refl eq_refl).
Defined.

(** 10 global files with 3 needed, and 1000 global bytes with none needed
    after clamping. *)
Lemma Summary_inSync_witness :
  ∃ res,
    sampleSummary "docs" = (Some res, None) ∧
    res !! "inSyncFiles" = Some (VInt 7) ∧
    res !! "inSyncBytes" = Some (VInt 1000).
Proof.
  eexists. split; [reflexivity|].
  destruct (Summary_inSync Sample.Error Sample.Paused
    Sample.NotRunning 32 Sample.LocalDeviceID Sample.GlobalDeviceID
    (model := Sample.model) (cfg := Sample.cfg) "docs" _ eq_refl)
    as (snap & needBytes & inSyncFiles & inSyncBytes & Hsnap & Hneed & HFiles
        & HBytes & -> & -> & _).
  injection Hsnap as <-. vm_compute in Hneed. injection Hneed as <-.
  split; [rewrite HFiles|rewrite HBytes]; vm_compute; reflexivity.
Defined.

(** A batch of 3 seconds resets the timer to 8 seconds. *)
Lemma pump_reset_throttles_witness :
  reset (sampleStep (PumpFired 0 0 (3 * time.Second)) Sample.service)
  = Some (8 * time.Second).
Proof.
  destruct (pump_reset_throttles Sample.Error Sample.Paused
    Sample.NotRunning 32 Sample.LocalDeviceID Sample.GlobalDeviceID
    Sample.DeviceIDString (model := Sample.model) (cfg := Sample.cfg)
    (pullerProgress := Empty_set) Sample.self 0 0 (3 * time.Second)
    Sample.service)
    as (_ & wait & Hreset & -> & _).
  - vm_compute. discriminate.
  - vm_compute. discriminate.
  - rewrite Hreset. reflexivity.
Defined.

(** The folder docs goes from syncing to idle: handed over and unmarked
    when the scheduler is ready, marked when it is not. *)
Lemma processUpdate_StateChanged_witness :
  ∃ c1 c2,
    sampleProcessUpdate Sample.docsSynced true Sample.service
    = Some (c1, Some "docs") ∧
    ("docs" ∉ folders c1) ∧
    sampleProcessUpdate Sample.docsSynced false Sample.service
    = Some (c2, None) ∧
    "docs" ∈ folders c2.
Proof.
  destruct (processUpdate_StateChanged Sample.DeviceIDFromString
    (cfg := Sample.cfg) Sample.docsSynced
    (list_to_map
       [ ("folder", VString "docs"); ("from", VString "syncing");
         ("to", VString "idle") ])
    "idle" "syncing" "docs" Sample.service
    eq_refl eq_refl eq_refl eq_refl eq_refl) as [_ Hfast].
  destruct Hfast as [(c1 & Hsent & _ & Hout & _) (c2 & Hmiss & _ & Hin & _)].
  - split; [reflexivity|]. left. reflexivity.
  - exists c1, c2. split; [exact Hsent|]. split; [exact Hout|].
    split; [exact Hmiss|exact Hin].
Defined.

(** Three index updates for docs, then a tick 30 seconds after the last
    event request. *)
Lemma marking_idempotent_witness :
  let c := {| folders := ∅; lastEventReq := 0 |} in
  let evs :=
    [ (Sample.docsIndexed, true); (Sample.docsRemoteIndexed, false);
      (Sample.docsIndexed, false) ] in
  let tick :=
    sampleStep (PumpFired (30 * time.Second) (30 * time.Second) (31 * time.Second))
      (markFolder "docs" c) in
  listenForUpdates Sample.DeviceIDFromString (cfg := Sample.cfg) evs c
  = Some (markFolder "docs" c, []) ∧
  length (List.filter (String.eqb "docs") (handled tick)) = 1%nat ∧
  folders (service tick) = ∅ ∧
  length (List.filter (isSummaryOf "docs") (logged tick)) = 1%nat.
Proof.
  intros c evs tick.
  assert (∀ type, type ≠ events.DeviceConnected → type ≠ events.DownloadProgress →
            type ≠ events.StateChanged →
            carriesFolder "docs" (Sample.event type [("folder", "docs")]))
    as Hcarries.
  { intros type H1 H2 H3. split; [exact H1|]. split; [exact H2|].
    split; [exact H3|]. eexists. split; reflexivity. }
  destruct (marking_idempotent Sample.Error Sample.Paused
    Sample.NotRunning 32 Sample.LocalDeviceID Sample.GlobalDeviceID
    Sample.DeviceIDFromString Sample.DeviceIDString
    (model := Sample.model) (cfg := Sample.cfg) Sample.self
    "docs" Sample.docsIndexed evs c
    (30 * time.Second) (30 * time.Second) (31 * time.Second))
    as (_ & Hmarks & _ & Hhandled & Hdrained & Hlogged).
  - apply Hcarries; discriminate.
  - repeat constructor; apply Hcarries; discriminate.
  - simpl. lia.
  - vm_compute. discriminate.
  - split; [exact Hmarks|]. split; [exact Hhandled|]. split; [exact Hdrained|].
    fold tick in Hlogged. rewrite Hlogged. vm_compute. reflexivity.
Defined.

(** The folder photos is not in the sample configuration. *)
Lemma absent_folder_summary_witness :
  ∃ res,
    sampleSummary "photos" = (Some res, None) ∧
    config.Folders (Wrapper := Sample.cfg) !! "photos" = None ∧
    sampleSendSummary "photos" = [summaryEvent "photos" res] ∧
    res !! "needDeletes" = Some (VInt 7) ∧
    res !! "receiveOnlyChangedFiles" = None.
Proof.
  eexists. split; [reflexivity|]. split; [reflexivity|].
  destruct (absent_folder_summary Sample.Error Sample.Paused
    Sample.NotRunning 32 Sample.LocalDeviceID Sample.GlobalDeviceID
    Sample.DeviceIDString (pullerProgress := Empty_set)
    (model := Sample.model) (cfg := Sample.cfg) Sample.self "photos" _
    eq_refl eq_refl eq_refl)
    as (Hsend & _ & snap & Hsnap & Hdeletes & Hro).
  injection Hsnap as <-. split; [exact Hsend|]. split; [exact Hdeletes|].
  exact (Forall_inv Hro).
Defined.

(** *** Further checks on the sample service *)

(** The folder docs is shared with A, this device, C (not connected) and
    B: sendSummary logs the summary, then the completion for A and the
    completion for B. *)
Example sendSummary_docs :
  Type_ <$> sampleSendSummary "docs"
  = [ events.FolderSummary; events.FolderCompletion; events.FolderCompletion ] ∧
  completionTargets (model := Sample.model) (cfg := Sample.cfg) Sample.self "docs"
  = [ Sample.deviceA; Sample.deviceB ].
Proof. split; vm_compute; reflexivity. Qed.

(** Summary fails when the snapshot cannot be had and when the error list
    cannot be read; it succeeds for a paused folder, and when only the
    state cannot be read. *)
Example Summary_outcomes :
  sampleSummary "broken" = (None, Some (Sample.Failed "no such folder")) ∧
  sampleSummary "damaged" = (None, Some (Sample.Failed "read error")) ∧
  (sampleSummary "paused").2 = None ∧
  (sampleSummary "photos").2 = None ∧
  default ∅ (sampleSummary "photos").1 !! "error"
  = Some (VString "state unavailable").
Proof. split_and!; vm_compute; reflexivity. Qed.

(** The ignore patterns of the sample model have a line that is neither
    empty nor a comment. *)
Example Summary_ignorePatterns :
  default ∅ (sampleSummary "docs").1 !! "ignorePatterns" = Some (VBool true).
Proof. vm_compute. reflexivity. Qed.

(** ** The further properties on the sample service *)

Abbreviation sampleListen :=
  (listenForUpdates Sample.DeviceIDFromString (cfg := Sample.cfg)).

(** The device A connects: the folder docs, which lists it, is marked. *)
Lemma processUpdate_DeviceConnected_witness :
  let ev : Event Empty_set :=
    {| Type_ := events.DeviceConnected; Data_ := DStrings {[ "id" := "A" ]} |} in
  ∃ c',
    sampleProcessUpdate ev false
      {| folders := ∅; lastEventReq := 0 |} = Some (c', None) ∧
    "docs" ∈ folders c'.
Proof.
  intros ev.
  destruct (processUpdate_DeviceConnected Sample.DeviceIDFromString
    (cfg := Sample.cfg) ev {[ "id" := "A" ]} false
    {| folders := ∅; lastEventReq := 0 |} eq_refl eq_refl)
    as (c' & Hstep & _ & Hin).
  exists c'. split; [exact Hstep|]. apply Hin. right.
  exists "docs", Sample.docs. split; [reflexivity|]. split; [reflexivity|].
  assert (Sample.DeviceIDFromString (default "" (({[ "id" := "A" ]} : gmap string string) !! "id"))
          = Sample.deviceA) as -> by (vm_compute; reflexivity).
  apply elem_of_cons. left. reflexivity.
Defined.

(** Progress is reported for docs and photos: both are marked. *)
Lemma processUpdate_DownloadProgress_witness :
  let data : gmap string (gmap string Empty_set) :=
    {[ "docs" := ∅; "photos" := ∅ ]} in
  let ev := {| Type_ := events.DownloadProgress; Data_ := DProgress data |} in
  ∃ c',
    sampleProcessUpdate ev false
      {| folders := ∅; lastEventReq := 0 |} = Some (c', None) ∧
    folders c' = {[ "docs"; "photos" ]}.
Proof.
  intros data ev.
  destruct (processUpdate_DownloadProgress Sample.DeviceIDFromString
    (cfg := Sample.cfg) ev data false
    {| folders := ∅; lastEventReq := 0 |} eq_refl eq_refl)
    as (c' & Hstep & _ & Hfolders).
  exists c'. split; [exact Hstep|]. rewrite Hfolders.
  vm_compute. reflexivity.
Defined.


(** An index update for docs is processed without a panic. *)
Lemma processUpdate_folder_payload_witness :
  is_Some (sampleProcessUpdate Sample.docsIndexed false Sample.service).
Proof.
  apply (processUpdate_folder_payload Sample.DeviceIDFromString
    (cfg := Sample.cfg) Sample.docsIndexed false Sample.service);
    [discriminate..|].
  eexists _, "docs". split; reflexivity.
Defined.

(** A tick exactly one minute after the event request still drains. *)
Lemma foldersToHandle_after_request_witness :
  60 * time.Second - 0 ≤ time.Minute ∧
  ∃ batch c',
    foldersToHandle (60 * time.Second) (OnEventRequest 0 Sample.service)
    = (batch, c') ∧
    NoDup batch ∧ (∀ folder, folder ∈ batch ↔ folder ∈ folders Sample.service) ∧
    folders c' = ∅ ∧ lastEventReq c' = 0.
Proof.
  assert (60 * time.Second - 0 ≤ time.Minute) as Hlive
    by (vm_compute; discriminate).
  split; [exact Hlive|].
  exact (foldersToHandle_after_request 0 (60 * time.Second) Sample.service Hlive).
Defined.

(** Two ticks, 30 and 32 seconds after the event request. *)
Lemma second_tick_is_idle_witness :
  let c1 :=
    service (sampleStep
      (PumpFired (30 * time.Second) (30 * time.Second) (31 * time.Second))
      Sample.service) in
  folders c1 = ∅ ∧
  handled (sampleStep
    (PumpFired (32 * time.Second) (32 * time.Second) (32 * time.Second)) c1) = [] ∧
  logged (sampleStep
    (PumpFired (32 * time.Second) (32 * time.Second) (32 * time.Second)) c1) = [] ∧
  service (sampleStep
    (PumpFired (32 * time.Second) (32 * time.Second) (32 * time.Second)) c1) = c1.
Proof.
  apply (second_tick_is_idle Sample.Error Sample.Paused Sample.NotRunning 32
    Sample.LocalDeviceID Sample.GlobalDeviceID Sample.DeviceIDString
    (pullerProgress := Empty_set) (model := Sample.model) (cfg := Sample.cfg)
    Sample.self).
  vm_compute. discriminate.
Defined.

(** The folder docs goes idle with the scheduler ready, an hour after the
    last event request: its summary is published all the same. *)
Lemma immediate_path_witness :
  ∃ c',
    sampleProcessUpdate Sample.docsSynced true Sample.service
    = Some (c', Some "docs") ∧
    logged (sampleStep (ImmediateReceived "docs") c') = sampleSendSummary "docs" ∧
    length (sampleSendSummary "docs") = 3%nat.
Proof.
  destruct (immediate_path Sample.Error Sample.Paused Sample.NotRunning 32
    Sample.LocalDeviceID Sample.GlobalDeviceID Sample.DeviceIDFromString
    Sample.DeviceIDString (model := Sample.model) (cfg := Sample.cfg)
    Sample.self Sample.docsSynced
    (list_to_map
       [ ("folder", VString "docs"); ("from", VString "syncing");
         ("to", VString "idle") ])
    "syncing" "docs" Sample.service
    eq_refl eq_refl eq_refl eq_refl (or_introl eq_refl) eq_refl)
    as (c' & Hstep & _ & Hlogged & _).
  exists c'. split; [exact Hstep|]. split; [exact Hlogged|].
  vm_compute. reflexivity.
Defined.

(** A service that was just made processes an index update; the tick is
    in November 2023. *)
Lemma fresh_service_is_silent_witness :
  let c := markFolder "docs" NewFolderSummaryService in
  let tick :=
    sampleStep (PumpFired 1700000000000000000 1700000000000000000
                  1700000000000000000) c in
  sampleListen [ (Sample.docsIndexed, false) ] NewFolderSummaryService
  = Some (c, []) ∧
  handled tick = [] ∧ logged tick = [] ∧ service tick = c.
Proof.
  intros c tick.
  assert (sampleListen [ (Sample.docsIndexed, false) ] NewFolderSummaryService
          = Some (c, [])) as Hlisten by (vm_compute; reflexivity).
  split; [exact Hlisten|].
  apply (fresh_service_is_silent Sample.Error Sample.Paused Sample.NotRunning 32
    Sample.LocalDeviceID Sample.GlobalDeviceID Sample.DeviceIDFromString
    Sample.DeviceIDString (model := Sample.model) (cfg := Sample.cfg)
    Sample.self _ c [] _ _ _ Hlisten).
  vm_compute. discriminate.
Defined.

(** An index update for docs, then a tick 30 seconds after the event
    request. *)
Lemma event_then_tick_witness :
  ∃ c1,
    sampleProcessUpdate Sample.docsIndexed false
      {| folders := ∅; lastEventReq := 0 |} = Some (c1, None) ∧
    logged (sampleStep
      (PumpFired (30 * time.Second) (30 * time.Second) (31 * time.Second)) c1)
    = sampleSendSummary "docs".
Proof.
  destruct (event_then_tick Sample.Error Sample.Paused Sample.NotRunning 32
    Sample.LocalDeviceID Sample.GlobalDeviceID Sample.DeviceIDFromString
    Sample.DeviceIDString (model := Sample.model) (cfg := Sample.cfg)
    Sample.self Sample.docsIndexed "docs" false
    {| folders := ∅; lastEventReq := 0 |}
    (30 * time.Second) (30 * time.Second) (31 * time.Second))
    as (c1 & Hstep & _ & Hlogged & _).
  - reflexivity.
  - split; [discriminate|]. split; [discriminate|]. split; [discriminate|].
    eexists. split; reflexivity.
  - vm_compute. discriminate.
  - exists c1. split; [exact Hstep|exact Hlogged].
Defined.

(** One summary for docs, which is marked, and none for photos, which is
    not. *)
Lemma tick_summaries_witness :
  let tick :=
    sampleStep (PumpFired (30 * time.Second) (30 * time.Second) (31 * time.Second))
      Sample.service in
  length (List.filter (isSummaryOf "docs") (logged tick)) = 1%nat ∧
  length (List.filter (isSummaryOf "photos") (logged tick)) = 0%nat.
Proof.
  intros tick. subst tick.
  assert (30 * time.Second - lastEventReq Sample.service ≤ time.Minute)
    as Hlive by (vm_compute; discriminate).
  split.
  - rewrite (tick_summaries Sample.Error Sample.Paused Sample.NotRunning 32
      Sample.LocalDeviceID Sample.GlobalDeviceID Sample.DeviceIDString
      (model := Sample.model) (cfg := Sample.cfg) Sample.self "docs"
      Sample.service _ _ _ Hlive).
    vm_compute. reflexivity.
  - rewrite (tick_summaries Sample.Error Sample.Paused Sample.NotRunning 32
      Sample.LocalDeviceID Sample.GlobalDeviceID Sample.DeviceIDString
      (model := Sample.model) (cfg := Sample.cfg) Sample.self "photos"
      Sample.service _ _ _ Hlive).
    vm_compute. reflexivity.
Defined.

(** The summary of docs logged by a tick comes from the marked folder. *)
Lemma tick_events_origin_witness :
  let tick :=
    sampleStep (PumpFired (30 * time.Second) (30 * time.Second) (31 * time.Second))
      Sample.service in
  let ev := summaryEvent "docs" (default ∅ (sampleSummary "docs").1) in
  ev ∈ logged tick ∧
  ∃ folder,
    eventFolder ev = Some (VString folder) ∧
    folder ∈ folders Sample.service ∧ (sampleSummary folder).2 = None.
Proof.
  intros tick ev.
  assert (ev ∈ logged tick) as Hin by (vm_compute; left).
  split; [exact Hin|].
  exact (tick_events_origin Sample.Error Sample.Paused Sample.NotRunning 32
    Sample.LocalDeviceID Sample.GlobalDeviceID Sample.DeviceIDString
    (model := Sample.model) (cfg := Sample.cfg) Sample.self
    ev Sample.service _ _ _ Hin).
Defined.

(** The completion event of device A for docs. *)
Lemma sendSummary_completion_payload_witness :
  let ev : Event Empty_set :=
    completionEvent Sample.DeviceIDString (model := Sample.model) "docs"
      Sample.deviceA in
  ev ∈ sampleSendSummary "docs" ∧
  ∃ dev m,
    dev ∈ completionTargets (model := Sample.model) (cfg := Sample.cfg)
            Sample.self "docs" ∧
    Data_ ev = DMap m ∧
    m !! "folder" = Some (VString "docs") ∧
    m !! "device" = Some (VString (Sample.DeviceIDString dev)) ∧
    ∀ k, k ≠ "folder" → k ≠ "device" →
         m !! k = Completion (Model := Sample.model) dev "docs" !! k.
Proof.
  intros ev.
  assert (ev ∈ sampleSendSummary "docs") as Hin by (vm_compute; right; left).
  split; [exact Hin|].
  exact (sendSummary_completion_payload Sample.Error Sample.Paused
    Sample.NotRunning 32 Sample.LocalDeviceID Sample.GlobalDeviceID
    Sample.DeviceIDString (model := Sample.model) (cfg := Sample.cfg)
    Sample.self "docs" ev Hin eq_refl).
Defined.

(** The sample model lists one error for docs. *)
Lemma Summary_error_count_witness :
  ∃ res,
    sampleSummary "docs" = (Some res, None) ∧
    res !! "errors" = Some (VInt 1) ∧
    res !! "pullErrors" = Some (VInt 1) ∧
    res !! "invalid" = Some (VString "").
Proof.
  eexists. split; [reflexivity|].
  exact (Summary_error_count Sample.Error Sample.Paused Sample.NotRunning 32
    Sample.LocalDeviceID Sample.GlobalDeviceID
    (model := Sample.model) (cfg := Sample.cfg) "docs" _ eq_refl).
Defined.

(** Local sequence 5 and global sequence 9. *)
Lemma Summary_sequence_witness :
  ∃ res,
    sampleSummary "docs" = (Some res, None) ∧
    res !! "version" = Some (VInt 14) ∧
    res !! "sequence" = res !! "version".
Proof.
  eexists. split; [reflexivity|].
  destruct (Summary_sequence Sample.Error Sample.Paused Sample.NotRunning 32
    Sample.LocalDeviceID Sample.GlobalDeviceID
    (model := Sample.model) (cfg := Sample.cfg) "docs" _ eq_refl)
    as (snap & Hsnap & Hversion & Hsame).
  injection Hsnap as <-. split; [|exact Hsame].
  rewrite Hversion. vm_compute. reflexivity.
Defined.

(** The sample ignore lines are a comment, an empty line and a pattern. *)
Lemma Summary_ignorePatterns_flag_witness :
  ∃ res flag,
    sampleSummary "docs" = (Some res, None) ∧
    res !! "ignorePatterns" = Some (VBool flag) ∧
    (flag = true ↔
     ∃ line, line ∈ [ "// backups"; ""; "*.tmp" ] ∧ line ≠ "" ∧
             strings.HasPrefix line "//" = false).
Proof.
  destruct (Summary_ignorePatterns_flag Sample.Error Sample.Paused
    Sample.NotRunning 32 Sample.LocalDeviceID Sample.GlobalDeviceID
    (model := Sample.model) (cfg := Sample.cfg) "docs" _ eq_refl)
    as (flag & Hflag & Hiff).
  eexists _, flag. split; [reflexivity|]. split; [exact Hflag|exact Hiff].
Defined.

(** The sample model reports no watch error. *)
Lemma Summary_watchError_witness :
  ∃ res,
    sampleSummary "docs" = (Some res, None) ∧ res !! "watchError" = None.
Proof.
  eexists. split; [reflexivity|].
  exact (Summary_watchError Sample.Error Sample.Paused Sample.NotRunning 32
    Sample.LocalDeviceID Sample.GlobalDeviceID
    (model := Sample.model) (cfg := Sample.cfg) "docs" _ eq_refl).
Defined.

(** The folder docs is receive-only, with one file changed locally. *)
Lemma Summary_receiveOnly_witness :
  ∃ res,
    sampleSummary "docs" = (Some res, None) ∧
    res !! "receiveOnlyChangedFiles" = Some (VInt 1) ∧
    res !! "receiveOnlyChangedBytes" = Some (VInt 20).
Proof.
  eexists. split; [reflexivity|].
  destruct (Summary_receiveOnly Sample.Error Sample.Paused Sample.NotRunning 32
    Sample.LocalDeviceID Sample.GlobalDeviceID
    (model := Sample.model) (cfg := Sample.cfg) "docs" _ eq_refl)
    as (snap & Hsnap & Hro).
  injection Hsnap as <-.
  change (config.Folder (Wrapper := Sample.cfg) "docs") with (Some Sample.docs) in Hro.
  change (bool_decide (config.Type_ Sample.docs = config.FolderTypeReceiveOnly))
    with true in Hro.
  split; [exact (Forall_inv Hro)|].
  exact (Forall_inv (Forall_inv_tail (Forall_inv_tail (Forall_inv_tail
          (Forall_inv_tail Hro))))).
Defined.

(** 3 files and 7 deletions needed: 10 items, though docs ignores
    deletions. *)
Lemma Summary_need_items_witness :
  ∃ res,
    sampleSummary "docs" = (Some res, None) ∧
    res !! "needFiles" = Some (VInt 3) ∧
    res !! "needDeletes" = Some (VInt 0) ∧
    res !! "needTotalItems" = Some (VInt 10).
Proof.
  eexists. split; [reflexivity|].
  destruct (Summary_need_items Sample.Error Sample.Paused Sample.NotRunning 32
    Sample.LocalDeviceID Sample.GlobalDeviceID
    (model := Sample.model) (cfg := Sample.cfg) "docs" _ eq_refl)
    as (snap & Hsnap & Hneed).
  injection Hsnap as <-. split; [exact (Forall_inv Hneed)|].
  split; [vm_compute; reflexivity|].
  pose proof (Forall_inv (Forall_inv_tail (Forall_inv_tail (Forall_inv_tail
                Hneed)))) as Htotal.
  cbn [fst snd] in Htotal. rewrite Htotal. vm_compute. reflexivity.
Defined.

(** The folder photos has no configuration: its 7 needed deletions are
    reported. *)
Lemma Summary_needDeletes_kept_witness :
  ∃ res,
    sampleSummary "photos" = (Some res, None) ∧
    res !! "needDeletes" = Some (VInt 7).
Proof.
  eexists. split; [reflexivity|].
  destruct (Summary_needDeletes_kept Sample.Error Sample.Paused
    Sample.NotRunning 32 Sample.LocalDeviceID Sample.GlobalDeviceID
    (model := Sample.model) (cfg := Sample.cfg) "photos" _ eq_refl)
    as (snap & Hsnap & Hdeletes).
  - intros fcfg Hcfg. discriminate Hcfg.
  - injection Hsnap as <-. exact Hdeletes.
Defined.

(** 10 global files, 13 global items, 900 local bytes. *)
Lemma Summary_sizes_witness :
  ∃ res,
    sampleSummary "docs" = (Some res, None) ∧
    res !! "globalFiles" = Some (VInt 10) ∧
    res !! "globalTotalItems" = Some (VInt 13).
Proof.
  eexists. split; [reflexivity|].
  destruct (Summary_sizes Sample.Error Sample.Paused Sample.NotRunning 32
    Sample.LocalDeviceID Sample.GlobalDeviceID
    (model := Sample.model) (cfg := Sample.cfg) "docs" _ eq_refl)
    as (snap & Hsnap & Hsizes).
  injection Hsnap as <-. split; [exact (Forall_inv Hsizes)|].
  pose proof (Forall_inv (Forall_inv_tail (Forall_inv_tail (Forall_inv_tail
                (Forall_inv_tail (Forall_inv_tail Hsizes)))))) as Htotal.
  cbn [fst snd] in Htotal. rewrite Htotal. vm_compute. reflexivity.
Defined.

(** The state of photos cannot be read: the record still has the state
    entries, and the error text. *)
Lemma Summary_state_witness :
  ∃ res,
    sampleSummary "photos" = (Some res, None) ∧
    res !! "state" = Some (VString "") ∧
    res !! "stateChanged" = Some (VTime 0) ∧
    res !! "error" = Some (VString "state unavailable").
Proof.
  eexists. split; [reflexivity|].
  destruct (Summary_state Sample.Error Sample.Paused Sample.NotRunning 32
    Sample.LocalDeviceID Sample.GlobalDeviceID
    (model := Sample.model) (cfg := Sample.cfg) "photos" _ eq_refl)
    as [Hstate Hchanged].
  split; [exact Hstate|]. split; [exact Hchanged|]. vm_compute. reflexivity.
Defined.
